(** * Price monitor: the scraping core and the CSV store

    A shallow embedding of [src/scraper.py] ([PriceScraper]) and of
    [PriceAnalyzer.load_data] from [src/analyzer.py].

    Conventions.
    - A Python [str] is a [string]: a list of code points below 256.  On that
      range the regular expression class [\d] is exactly ['0'..'9'].
    - A Python [float] is a [spec_float] of binary64 (precision 53, maximal
      exponent 1024); [None] is the [None] of [option].
    - What the program receives from outside is an input of the model: the
      outcome of the HTTP request, the parsed page, the clock, and the
      content of the data file. *)

From Stdlib Require Import ZArith List Bool Arith Lia.
From Stdlib Require Import Ascii String.
From Stdlib Require Import Floats.SpecFloat Floats.PrimFloat Floats.FloatOps.
Import ListNotations.

Local Open Scope string_scope.
Local Open Scope list_scope.

Set Warnings "-inexact-float".

(** ** Text *)

Module Text.

(** [\d] on code points below 256. *)
Definition is_digit (c : ascii) : bool :=
  let n := nat_of_ascii c in ((48 <=? n) && (n <=? 57))%nat.

Definition is_comma (c : ascii) : bool := Ascii.eqb c ",".

(** The class [[\d,]]. *)
Definition is_digit_or_comma (c : ascii) : bool := is_digit c || is_comma c.

(** Longest prefix whose characters satisfy [p], and the rest. *)
Fixpoint span (p : ascii -> bool) (s : string) : string * string :=
  match s with
  | EmptyString => (EmptyString, EmptyString)
  | String c r =>
      if p c then let (a, b) := span p r in (String c a, b)
      else (EmptyString, s)
  end.

(** [str.replace(',', '')]. *)
Fixpoint remove_commas (s : string) : string :=
  match s with
  | EmptyString => EmptyString
  | String c r => if is_comma c then remove_commas r else String c (remove_commas r)
  end.

Fixpoint forallb_str (p : ascii -> bool) (s : string) : bool :=
  match s with
  | EmptyString => true
  | String c r => p c && forallb_str p r
  end.

(** [s[:n]]. *)
Fixpoint take (n : nat) (s : string) : string :=
  match n, s with
  | O, _ => EmptyString
  | _, EmptyString => EmptyString
  | S k, String c r => String c (take k r)
  end.

(** [s.split(sep)] for a one-character separator: never the empty list. *)
Fixpoint split (sep : ascii) (s : string) : list string :=
  match s with
  | EmptyString => [EmptyString]
  | String c r =>
      if Ascii.eqb c sep then EmptyString :: split sep r
      else match split sep r with
           | seg :: segs => String c seg :: segs
           | [] => [String c EmptyString]
           end
  end.

(** [str.startswith]. *)
Definition startswith (p s : string) : bool := String.prefix p s.

End Text.

(** ** Python floats *)

Module PyFloat.

Definition prec : Z := 53.
Definition emax : Z := 1024.

(** The binary64 value nearest to [m / 10^k] (ties to even), for [0 <= m]. *)
Definition of_decimal (m : Z) (k : nat) : spec_float :=
  match m with
  | Zpos p =>
      SFdiv prec emax (S754_finite false p 0)
                      (S754_finite false (Z.to_pos (10 ^ Z.of_nat k)) 0)
  | _ => S754_zero false
  end.

(** Value of a run of decimal digits, most significant first. *)
Fixpoint digits_value (acc : Z) (s : string) : Z :=
  match s with
  | EmptyString => acc
  | String c r => digits_value (10 * acc + (Z.of_nat (nat_of_ascii c) - 48)) r
  end.

(** [float(s)] on the strings [extract_price] builds: decimal digits with at
    most one point, of which [float] accepts those with one digit at least
    and rejects the others with [ValueError] ([None] here).  Signs,
    exponents, blanks and the rest of the grammar of [float] cannot reach it
    and are rejected by this model. *)
Definition float (s : string) : option spec_float :=
  let (ip, r) := Text.span Text.is_digit s in
  let fp_rest :=
    match r with
    | String "."%char f => Some f
    | EmptyString => Some EmptyString
    | _ => None
    end in
  match fp_rest with
  | None => None
  | Some f =>
      if Text.forallb_str Text.is_digit f then
        if (String.length ip + String.length f =? 0)%nat then None
        else Some (of_decimal (digits_value 0 (ip ++ f)%string) (String.length f))
      else None
  end.

(** Truth value of a float: everything but zero. *)
Definition truthy (x : spec_float) : bool :=
  match x with
  | S754_zero _ => false
  | _ => true
  end.

Definition zero : spec_float := S754_zero false.

End PyFloat.

(** Truth value of [float | None] in [if price:]. *)
Definition truthy_price (p : option spec_float) : bool :=
  match p with
  | Some x => PyFloat.truthy x
  | None => false
  end.

(** ** [PriceScraper.extract_price] *)

(** One attempt of [[\d,]+\.?\d*] at the start of [s]: the match and what
    follows it.  Every part after the first is optional, so the greedy
    attempt never has to give characters back. *)
Definition optional_dot (s : string) : string * string :=
  match s with
  | String "."%char r => (".", r)
  | _ => (EmptyString, s)
  end.

Definition match_here (s : string) : option (string * string) :=
  let (a, r1) := Text.span Text.is_digit_or_comma s in
  match a with
  | EmptyString => None
  | _ =>
      let (d, r2) := optional_dot r1 in
      let (f, r3) := Text.span Text.is_digit r2 in
      Some ((a ++ d ++ f)%string, r3)
  end.

(** [re.findall(price_pattern, text)]: the matches from left to right,
    without overlap.  [skip] counts the characters of the current match that
    are still to be passed over. *)
Fixpoint findall_from (skip : nat) (s : string) : list string :=
  match s with
  | EmptyString => []
  | String _ r =>
      match skip with
      | S k => findall_from k r
      | O =>
          match match_here s with
          | Some (m, _) => m :: findall_from (String.length m - 1) r
          | None => findall_from 0 r
          end
      end
  end.

Definition findall (text : string) : list string := findall_from 0 text.

Definition extract_price (text : string) : option spec_float :=
  match findall text with
  | m :: _ =>
      let price_str := Text.remove_commas m in
      PyFloat.float price_str
  | [] => None
  end.

(** ** Observations *)

(** The dictionary [scrape_generic_product] returns, and a row of the data
    frame built from such dictionaries.  [TS] is the type of the
    [timestamp] column: text when scraped and stored, a date once
    [load_data] has converted it.  A missing value ([None], [NaN]) is
    [None]. *)
Record Row (TS : Type) : Type := mkRow {
  title : string;
  url : string;
  price : option spec_float;
  price_text : option string;
  timestamp : TS;
  status : string
}.

Arguments mkRow {TS}.
Arguments title {TS}.
Arguments url {TS}.
Arguments price {TS}.
Arguments price_text {TS}.
Arguments timestamp {TS}.
Arguments status {TS}.

Abbreviation Observation := (Row string).

(** ** [PriceScraper.scrape_generic_product] *)

(** A parsed page ([soup]): for a CSS selector, the stripped text of the
    first element it selects ([soup.select_one(sel).get_text(strip=True)]),
    or [None] when it selects nothing.  The selectors are taken to be well
    formed. *)
Definition Soup : Type := string -> option string.

(** Outcome of [session.get] followed by [raise_for_status]: a
    [requests.RequestException] with its message, or the page. *)
Inductive Response : Type :=
  | RequestException (detail : string)
  | Fetched (soup : Soup).

Definition common_selectors : list string :=
  [ ".price";
    ".a-price-whole";
    "[data-price]";
    ".product-price";
    "#priceblock_dealprice";
    "#priceblock_ourprice";
    ".price-current";
    "[itemprop=" ++ String (ascii_of_nat 34) "price" ++ String (ascii_of_nat 34) "]" ]%string.

Definition title_selectors : list string :=
  [ "h1";
    ".product-title";
    "#productTitle";
    "[itemprop=" ++ String (ascii_of_nat 34) "name" ++ String (ascii_of_nat 34) "]" ]%string.

(** [if price_selector: common_selectors.insert(0, price_selector)]: [None]
    and the empty string are both false. *)
Definition price_selectors (price_selector : option string) : list string :=
  match price_selector with
  | Some (String c r) => String c r :: common_selectors
  | _ => common_selectors
  end.

(** The loop over the price selectors, from the state [(price, price_text)].
    A selector that matches overwrites both variables; the loop is left as
    soon as [price] is true. *)
Fixpoint price_loop (soup : Soup) (selectors : list string)
    (st : option spec_float * option string)
    : option spec_float * option string :=
  match selectors with
  | [] => st
  | selector :: rest =>
      match soup selector with
      | Some text =>
          let p := extract_price text in
          if truthy_price p then (p, Some text)
          else price_loop soup rest (p, Some text)
      | None => price_loop soup rest st
      end
  end.

Definition resolve_price (soup : Soup) (selectors : list string)
    : option spec_float * option string :=
  price_loop soup selectors (None, None).

(** The loop over the title selectors: the text of the first match. *)
Fixpoint title_loop (soup : Soup) (selectors : list string) : option string :=
  match selectors with
  | [] => None
  | selector :: rest =>
      match soup selector with
      | Some text => Some text
      | None => title_loop soup rest
      end
  end.

(** [url.split('/')[-1][:50]]. *)
Definition url_fallback (u : string) : string :=
  Text.take 50 (last (Text.split "/" u) EmptyString).

(** [if not title: title = ...]: [None] and the empty string are false. *)
Definition resolve_title (soup : Soup) (u : string) : string :=
  match title_loop soup title_selectors with
  | Some (String c r) => String c r
  | _ => url_fallback u
  end.

(** [now] is [datetime.now().strftime('%Y-%m-%d %H:%M:%S')]. *)
Definition scrape_generic_product (resp : Response) (now : string)
    (u : string) (price_selector : option string) : Observation :=
  match resp with
  | Fetched soup =>
      let (p, ptext) := resolve_price soup (price_selectors price_selector) in
      let t := resolve_title soup u in
      {| title := t; url := u; price := p; price_text := ptext;
         timestamp := now;
         status := if truthy_price p then "success" else "price_not_found" |}
  | RequestException detail =>
      {| title := u; url := u; price := None; price_text := None;
         timestamp := now;
         status := ("error: " ++ detail)%string |}
  end.

(** ** The store *)

Abbreviation DataFrame TS := (list (Row TS)).

(** What the program uses of pandas on the data file.  [to_csv] writes a
    frame as text, [read_csv] reads a text back and [to_datetime] converts
    one element of the [timestamp] column; [None] stands for an exception
    raised by the library. *)
Class Pandas : Type := {
  csv : Type;
  Timestamp : Type;
  to_csv : DataFrame string -> csv;
  read_csv : csv -> option (DataFrame string);
  to_datetime : string -> option Timestamp
}.

(** The columns of [subset=['url', 'timestamp']]. *)
Definition key (r : Observation) : string * string := (url r, timestamp r).

Definition key_eqb (k1 k2 : string * string) : bool :=
  String.eqb (fst k1) (fst k2) && String.eqb (snd k1) (snd k2).

Definition has_key (k : string * string) (r : Observation) : bool :=
  key_eqb k (key r).

(** [df.drop_duplicates(subset=['url', 'timestamp'], keep='last')]: a row
    is dropped when a later row has its key; the others keep their order. *)
Fixpoint drop_duplicates (df : DataFrame string) : DataFrame string :=
  match df with
  | [] => []
  | r :: rest =>
      if existsb (has_key (key r)) rest then drop_duplicates rest
      else r :: drop_duplicates rest
  end.

(** The state of [PRICE_DATA_FILE]: absent, or its content. *)
Definition File `{Pandas} : Type := option csv.

(** [PriceScraper.save_to_csv]: the frame returned and the file left
    behind, or [None] when [read_csv] raises. *)
Definition save_to_csv `{Pandas} (file : File) (data : list Observation)
    : option (DataFrame string * File) :=
  let df_new := data in
  let combined :=
    match file with
    | Some f =>
        match read_csv f with
        | Some df_existing => Some (df_existing ++ df_new)
        | None => None
        end
    | None => Some df_new
    end in
  match combined with
  | Some df_combined =>
      let df_combined := drop_duplicates df_combined in
      Some (df_combined, Some (to_csv df_combined))
  | None => None
  end.

(** [pd.to_datetime(df['timestamp'])] row by row: the frame with its
    [timestamp] column converted, or [None] when one element is refused. *)
Fixpoint convert_timestamps `{Pandas} (df : DataFrame string)
    : option (DataFrame Timestamp) :=
  match df with
  | [] => Some []
  | r :: rest =>
      match to_datetime (timestamp r), convert_timestamps rest with
      | Some t, Some rest' =>
          Some ({| title := title r; url := url r; price := price r;
                   price_text := price_text r; timestamp := t;
                   status := status r |} :: rest')
      | _, _ => None
      end
  end.

(** [df['price'].notna()]. *)
Definition price_notna {TS : Type} (r : Row TS) : bool :=
  match price r with
  | Some _ => true
  | None => false
  end.

(** [PriceAnalyzer.load_data]: the value returned and [self.df] ([None]
    until a frame is loaded); the outer [None] is an exception raised by
    [read_csv] or [to_datetime]. *)
Definition load_data `{Pandas} (file : File)
    : option (bool * option (DataFrame Timestamp)) :=
  match file with
  | None => Some (false, None)
  | Some f =>
      match read_csv f with
      | Some df =>
          match convert_timestamps df with
          | Some df' => Some (true, Some (filter price_notna df'))
          | None => None
          end
      | None => None
      end
  end.

(** ** Notions used to state the properties *)

(** No character of the text is a digit. *)
Definition no_digit (text : string) : bool :=
  Text.forallb_str (fun c => negb (Text.is_digit c)) text.

(** The last row of [df] with key [k]. *)
Fixpoint last_with_key (k : string * string) (df : DataFrame string)
    : option Observation :=
  match df with
  | [] => None
  | r :: rest =>
      match last_with_key k rest with
      | Some r' => Some r'
      | None => if has_key k r then Some r else None
      end
  end.

(** The dataset invariant: at most one row for a key. *)
Definition unique_keys (df : DataFrame string) : Prop := NoDup (map key df).

(** A selector that stops the price loop: it matches and the parsed price
    is true. *)
Definition yields_price (soup : Soup) (selector : string) : bool :=
  match soup selector with
  | Some text => truthy_price (extract_price text)
  | None => false
  end.

(** A selector whose element parses to a number, zero included. *)
Definition parses (soup : Soup) (selector : string) : bool :=
  match soup selector with
  | Some text =>
      match extract_price text with
      | Some _ => true
      | None => false
      end
  | None => false
  end.

(** The text of the last selector of the list that matches. *)
Fixpoint last_match (soup : Soup) (selectors : list string) : option string :=
  match selectors with
  | [] => None
  | selector :: rest =>
      match last_match soup rest with
      | Some text => Some text
      | None => soup selector
      end
  end.

Definition no_slash (c : ascii) : bool := negb (Ascii.eqb c "/").

(** [r'] is [r] with its timestamp converted and nothing else changed. *)
Definition converted `{Pandas} (r : Observation) (r' : Row Timestamp) : Prop :=
  title r' = title r /\ url r' = url r /\ price r' = price r
  /\ price_text r' = price_text r /\ status r' = status r
  /\ to_datetime (timestamp r) = Some (timestamp r').

(** The price loop stops at the first selector whose text parses to any
    number, and that number is the price. *)
Definition stops_at_first_parsed (soup : Soup) (selectors : list string) : Prop :=
  forall l1 selector l2 text v,
    selectors = l1 ++ selector :: l2 ->
    (forall s, In s l1 -> parses soup s = false) ->
    soup selector = Some text ->
    extract_price text = Some v ->
    resolve_price soup selectors = (Some v, Some text).

(** The status is [price_not_found] only when no selector of the list
    parses to a number. *)
Definition not_found_only_if_unparsed (soup : Soup) (sel : option string) : Prop :=
  forall now u,
    status (scrape_generic_product (Fetched soup) now u sel) = "price_not_found" ->
    forall s, In s (price_selectors sel) -> parses soup s = false.

(** The title of a fetched page is never empty. *)
Definition title_never_empty (soup : Soup) (u : string) : Prop :=
  forall now sel,
    title (scrape_generic_product (Fetched soup) now u sel) <> EmptyString.


(** ** The data file as a table; pages and rows of the examples *)

Record DateTime : Type := mkDateTime {
  year : Z; month : Z; day : Z; hour : Z; minute : Z; second : Z
}.

(** Exactly [n] decimal digits at the start of [s]: their value and the
    rest. *)
Fixpoint read_digits (n : nat) (acc : Z) (s : string) : option (Z * string) :=
  match n with
  | O => Some (acc, s)
  | S k =>
      match s with
      | String c r =>
          if Text.is_digit c
          then read_digits k (10 * acc + (Z.of_nat (nat_of_ascii c) - 48)) r
          else None
      | EmptyString => None
      end
  end.

Definition read_char (c : ascii) (s : string) : option string :=
  match s with
  | String c' r => if Ascii.eqb c c' then Some r else None
  | EmptyString => None
  end.

Definition leap_year (y : Z) : bool :=
  ((y mod 4 =? 0) && (negb (y mod 100 =? 0) || (y mod 400 =? 0)))%Z.

Definition days_in_month (y mo : Z) : Z :=
  if (mo =? 2)%Z then (if leap_year y then 29 else 28)%Z
  else if ((mo =? 4) || (mo =? 6) || (mo =? 9) || (mo =? 11))%Z then 30%Z
  else 31%Z.

(** Reads the text written with ['%Y-%m-%d %H:%M:%S']: nineteen characters,
    a date of the calendar and a time of the day.  The years are those a
    [Timestamp] of pandas holds whole, 1678 to 2261. *)
Definition strptime_seconds (s : string) : option DateTime :=
  match read_digits 4 0 s with
  | Some (y, s) =>
  match read_char "-" s with Some s =>
  match read_digits 2 0 s with Some (mo, s) =>
  match read_char "-" s with Some s =>
  match read_digits 2 0 s with Some (d, s) =>
  match read_char " " s with Some s =>
  match read_digits 2 0 s with Some (h, s) =>
  match read_char ":" s with Some s =>
  match read_digits 2 0 s with Some (mi, s) =>
  match read_char ":" s with Some s =>
  match read_digits 2 0 s with Some (se, EmptyString) =>
    if ((1678 <=? y) && (y <=? 2261) && (1 <=? mo) && (mo <=? 12)
        && (1 <=? d) && (d <=? days_in_month y mo)
        && (h <=? 23) && (mi <=? 59) && (se <=? 59))%Z
    then Some (mkDateTime y mo d h mi se) else None
  | _ => None end | None => None end | None => None end | None => None end
  | None => None end | None => None end | None => None end | None => None end
  | None => None end | None => None end
  | None => None
  end.

(** The data file held as the table pandas writes: a header and one record
    of six cells for a row, a missing value being an empty cell.  What
    [to_csv] writes is what [read_csv] reads; the text of the cells
    (quoting, the digits of a float, the types [read_csv] infers) is not
    modelled.  The timestamps are read with [strptime_seconds]. *)
Definition table_pandas : Pandas := {|
  csv := DataFrame string;
  Timestamp := DateTime;
  to_csv := fun df => df;
  read_csv := fun f => Some f;
  to_datetime := strptime_seconds
|}.

(** A page described by the selectors that match and their texts. *)
Fixpoint page_of (elements : list (string * string)) : Soup :=
  fun selector =>
    match elements with
    | [] => None
    | (s, text) :: rest =>
        if String.eqb s selector then Some text else page_of rest selector
    end.

Definition free_then_priced : Soup :=
  page_of [(".price", "0"); (".a-price-whole", "5")].

Definition free_sample : Soup :=
  page_of [("h1", "Free sample"); (".price", "$0.00")].

Definition untitled : Soup := page_of [(".price", "$19.99")].

Definition widget : Soup :=
  page_of [("h1", "Widget"); (".price", "$19.99")].

Definition third_builtin : Soup :=
  page_of [("[data-price]", "USD 42.50")].

Definition timeout_row : Observation :=
  scrape_generic_product (RequestException "Read timed out.")
    "2024-05-01 12:00:00" "https://x.com/cool-gadget" None.

Definition widget_row (now : string) : Observation :=
  scrape_generic_product (Fetched widget) now "https://x.com/widget" None.

Definition widget_sale : Soup :=
  page_of [("h1", "Widget"); (".price", "$17.49")].

Definition sale_row (now : string) : Observation :=
  scrape_generic_product (Fetched widget_sale) now "https://x.com/widget" None.

Definition two_days : DataFrame string :=
  [widget_row "2024-05-01 12:00:00"; widget_row "2024-05-02 12:00:00"].

(** ** [PriceScraper.scrape_demo_data] and [main] *)

(** [str.lower()] on code points below 256: the letters [A-Z] and the
    capital letters of Latin-1 (192 to 222, the sign at 215 left out) move
    up by 32. *)
Definition lower_char (c : ascii) : ascii :=
  let n := nat_of_ascii c in
  if ((65 <=? n) && (n <=? 90))%nat then ascii_of_nat (n + 32)
  else if ((192 <=? n) && (n <=? 222) && negb (n =? 215))%nat
       then ascii_of_nat (n + 32)
       else c.

Fixpoint lower (s : string) : string :=
  match s with
  | EmptyString => EmptyString
  | String c r => String (lower_char c) (lower r)
  end.

(** [s.replace(" ", "-")]. *)
Fixpoint replace_space (s : string) : string :=
  match s with
  | EmptyString => EmptyString
  | String c r =>
      String (if Ascii.eqb c " " then "-"%char else c) (replace_space r)
  end.

(** The integer nearest to [num / den], ties to the even one, for
    [0 <= num] and [0 < den]. *)
Definition round_half_even (num den : Z) : Z :=
  let q := (num / den)%Z in
  let r := (num mod den)%Z in
  match (2 * r ?= den)%Z with
  | Lt => q
  | Gt => (q + 1)%Z
  | Eq => if Z.even q then q else (q + 1)%Z
  end.

(** [round(x, 2)]: the float nearest to the decimal with two places that
    is nearest to [x], ties between decimals going to the even one. *)
Definition round2 (x : spec_float) : spec_float :=
  match x with
  | S754_finite s m e =>
      let n :=
        match e with
        | Zneg k => round_half_even (Zpos m * 100) (Z.pow_pos 2 k)
        | _ => (Zpos m * 100 * 2 ^ e)%Z
        end in
      match n with
      | Zpos _ =>
          let y := PyFloat.of_decimal n 2 in
          if s then SFopp y else y
      | _ => S754_zero s
      end
  | _ => x
  end.

Record Product : Type := mkProduct {
  name : string;
  base_price : spec_float
}.

Definition products : list Product :=
  [ mkProduct "Laptop Computer" (Prim2SF 899.99%float);
    mkProduct "Wireless Mouse" (Prim2SF 29.99%float);
    mkProduct "Mechanical Keyboard" (Prim2SF 89.99%float);
    mkProduct "USB-C Hub" (Prim2SF 49.99%float);
    mkProduct ("27" ++ String (ascii_of_nat 34) " Monitor")%string
              (Prim2SF 299.99%float) ].

Definition demo_url (p : Product) : string :=
  ("https://example.com/" ++ replace_space (lower (name p)))%string.

(** [round(product['base_price'] * (1 + variation), 2)]. *)
Definition demo_price (p : Product) (variation : spec_float) : spec_float :=
  round2 (SFmul PyFloat.prec PyFloat.emax (base_price p)
            (SFadd PyFloat.prec PyFloat.emax (Prim2SF 1%float) variation)).

(** [range(30, 0, -1)]. *)
Definition day_offsets : list nat := rev (seq 1 30).

(** The records of one day.  [stamp] is the text of noon of that day and
    [variation] gives, product by product, the number drawn by
    [random.uniform(-0.10, 0.10)]. *)
Definition demo_day (stamp : string) (variation : Product -> spec_float)
    : list Observation :=
  map (fun p =>
         {| title := name p; url := demo_url p;
            price := Some (demo_price p (variation p));
            price_text := None; timestamp := stamp; status := "success" |})
      products.

(** [noon d] is [(base_date - timedelta(days=d))] set to 12:00:00 and
    written with ['%Y-%m-%d %H:%M:%S']; [variation d p] is the number drawn
    for product [p] on that day.  The dictionaries have no [price_text]
    entry: the column is missing for them. *)
Definition scrape_demo_data (noon : nat -> string)
    (variation : nat -> Product -> spec_float) : list Observation :=
  flat_map (fun day_offset => demo_day (noon day_offset) (variation day_offset))
           day_offsets.

(** [main] of the scraper: the data file it leaves, or [None] when
    [save_to_csv] raises. *)
Definition main `{Pandas} (noon : nat -> string)
    (variation : nat -> Product -> spec_float) (file : File) : option File :=
  let demo_data := scrape_demo_data noon variation in
  match save_to_csv file demo_data with
  | Some (df, file') => Some file'
  | None => None
  end.

(** ** More notions used to state the properties *)

(** The text is empty or starts with a character that fails [p]. *)
Definition starts_outside (p : ascii -> bool) (s : string) : Prop :=
  s = EmptyString \/ exists c r, s = String c r /\ p c = false.

(** A float that is zero, finite or infinite with the sign bit clear. *)
Definition unsigned_float (v : spec_float) : Prop :=
  v = S754_zero false \/ v = S754_infinity false
  \/ exists m e, v = S754_finite false m e.

(** An observation that [scrape_generic_product] returned. *)
Definition scraped (r : Observation) : Prop :=
  exists resp now u sel, r = scrape_generic_product resp now u sel.

(** The key of [r] is the key of a row of [df]. *)
Definition key_in (df : DataFrame string) (r : Observation) : bool :=
  existsb (has_key (key r)) df.

(** A heading that is there and empty, and a title further down. *)
Definition empty_heading : Soup :=
  page_of [("h1", EmptyString); (".product-title", "Widget")].

(** A row without price whose timestamp is not a date. *)
Definition undated_row : Observation :=
  scrape_generic_product (RequestException "Read timed out.")
    "yesterday" "https://x.com/cool-gadget" None.

Definition free_sample_row : Observation :=
  scrape_generic_product (Fetched free_sample)
    "2024-05-01 12:00:00" "https://x.com/free-sample" None.

(** The stamps of a run made on 2024-05-31: noon of the days of May, from
    the 30th back to the 1st. *)
Definition may_noon (day_offset : nat) : string :=
  ("2024-05-"
   ++ String (ascii_of_nat (48 + (31 - day_offset) / 10))
        (String (ascii_of_nat (48 + (31 - day_offset) mod 10)) " 12:00:00"))%string.

(** Draws that are all zero: every price is the base price. *)
Definition no_variation (day_offset : nat) (p : Product) : spec_float :=
  S754_zero false.

(** Draws that are all a tenth. *)
Definition tenth_up (day_offset : nat) (p : Product) : spec_float :=
  Prim2SF 0.1%float.

Definition free_sample_loaded : Row DateTime :=
  {| title := "Free sample"; url := "https://x.com/free-sample";
     price := Some PyFloat.zero; price_text := Some "$0.00";
     timestamp := mkDateTime 2024 5 1 12 0 0;
     status := "price_not_found" |}.

(** The keys of the demo records of the days [days]. *)
Definition demo_keys (noon : nat -> string) (days : list nat)
    : list (string * string) :=
  flat_map (fun d => map (fun p => (demo_url p, noon d)) products) days.

(** [text] is [pre], in which no character is a digit or a comma, then the
    run [a] of digits and commas, then a point and the digits [f] when
    [point] holds, then [tail], which does not go on with the number. *)
Definition splits_at_first_number (text pre a f tail : string) (point : bool)
    : Prop :=
  text = (pre ++ a ++ (if point then String "." (f ++ tail) else tail))%string
  /\ Text.forallb_str (fun c => negb (Text.is_digit_or_comma c)) pre = true
  /\ Text.forallb_str Text.is_digit_or_comma a = true
  /\ a <> EmptyString
  /\ Text.forallb_str Text.is_digit f = true
  /\ (point = false -> f = EmptyString)
  /\ starts_outside
       (if point then Text.is_digit
        else fun c => Text.is_digit_or_comma c || Ascii.eqb c ".") tail.

(** With no data file, [save_to_csv] returns a frame that holds exactly the
    new observations. *)
Definition appends_all_new `{Pandas} (new : DataFrame string) : Prop :=
  exists df file',
    save_to_csv None new = Some (df, file')
    /\ forall r, In r df <-> In r new.

(** The request for the widget page failing in the second of
    [widget_row "2024-05-02 12:00:00"]. *)
Definition widget_timeout : Observation :=
  scrape_generic_product (RequestException "Read timed out.")
    "2024-05-02 12:00:00" "https://x.com/widget" None.



(** * Properties *)

(** ** Text *)

Section TextFacts.

Import Text.

Lemma span_append (p : ascii -> bool) (s : string) :
  (fst (span p s) ++ snd (span p s))%string = s.
Proof.
  induction s as [|c r IH]; simpl; [reflexivity|].
  destruct (p c); simpl; [|reflexivity].
  destruct (span p r) as [a b]; simpl in *. now rewrite IH.
Qed.

Lemma span_forallb (p : ascii -> bool) (s : string) :
  forallb_str p (fst (span p s)) = true.
Proof.
  induction s as [|c r IH]; simpl; [reflexivity|].
  destruct (p c) eqn:E; simpl; [|reflexivity].
  destruct (span p r) as [a b]; simpl in *. now rewrite E, IH.
Qed.

Lemma span_none (p : ascii -> bool) (s : string) :
  forallb_str (fun c => negb (p c)) s = true -> span p s = (EmptyString, s).
Proof.
  destruct s as [|c r]; simpl; [reflexivity|].
  destruct (p c); simpl; [discriminate | reflexivity].
Qed.

Lemma forallb_str_snd_span (p q : ascii -> bool) (s : string) :
  forallb_str q s = true -> forallb_str q (snd (span p s)) = true.
Proof.
  induction s as [|c r IH]; simpl; [reflexivity|].
  intros H. apply andb_prop in H as [Hc Hr].
  destruct (p c); simpl.
  - destruct (span p r) as [a b]; simpl in *. auto.
  - now rewrite Hc, Hr.
Qed.

Lemma remove_commas_append (a b : string) :
  remove_commas (a ++ b) = (remove_commas a ++ remove_commas b)%string.
Proof.
  induction a as [|c r IH]; simpl; [reflexivity|].
  destruct (is_comma c); simpl; now rewrite IH.
Qed.

(** Without a digit in the text, the run of [[\d,]] is made of commas only. *)
Lemma span_commas_only (s : string) :
  forallb_str (fun c => negb (is_digit c)) s = true ->
  remove_commas (fst (span is_digit_or_comma s)) = EmptyString.
Proof.
  induction s as [|c r IH]; simpl; [reflexivity|].
  intros H. apply andb_prop in H as [Hc Hr].
  unfold is_digit_or_comma at 1.
  destruct (is_digit c); [discriminate|]. simpl.
  destruct (is_comma c) eqn:E; simpl; [|reflexivity].
  destruct (span is_digit_or_comma r) as [a b] eqn:Es; simpl in *.
  rewrite E. auto.
Qed.

End TextFacts.

(** ** [extract_price] *)

Lemma optional_dot_cases (s : string) :
  (exists r, s = String "." r /\ optional_dot s = (".", r))
  \/ optional_dot s = (EmptyString, s).
Proof.
  destruct s as [|c r]; [now right|].
  destruct (Ascii.eqb c ".") eqn:E.
  - apply Ascii.eqb_eq in E. subst c. left. now exists r.
  - right. destruct c as [[] [] [] [] [] [] [] []]; try reflexivity.
    discriminate E.
Qed.

Lemma match_here_no_digit (s m r : string) :
  no_digit s = true ->
  match_here s = Some (m, r) ->
  PyFloat.float (Text.remove_commas m) = None.
Proof.
  unfold no_digit, match_here. intros Hs.
  pose proof (span_commas_only s Hs) as Ha.
  pose proof (forallb_str_snd_span Text.is_digit_or_comma _ s Hs) as Hr1.
  destruct (Text.span Text.is_digit_or_comma s) as [a r1]; simpl in *.
  destruct a as [|c a']; [discriminate|].
  assert (Hr2 : Text.forallb_str (fun c => negb (Text.is_digit c))
                  (snd (optional_dot r1)) = true
                /\ (fst (optional_dot r1) = EmptyString
                    \/ fst (optional_dot r1) = ".")).
  { destruct (optional_dot_cases r1) as [(r' & -> & E) | E]; rewrite E; simpl.
    - simpl in Hr1. tauto.
    - tauto. }
  destruct (optional_dot r1) as [d r2]; simpl in Hr2.
  destruct Hr2 as [Hr2 Hd].
  rewrite (span_none _ _ Hr2).
  intros H; injection H as <- <-.
  change (String c (a' ++ d ++ EmptyString))%string
    with (String c a' ++ (d ++ EmptyString))%string.
  rewrite remove_commas_append, Ha.
  destruct Hd as [-> | ->]; reflexivity.
Qed.

Lemma findall_from_no_digit (s : string) :
  no_digit s = true ->
  forall skip m ms,
    findall_from skip s = m :: ms ->
    PyFloat.float (Text.remove_commas m) = None.
Proof.
  induction s as [|c r IH]; intros Hs skip m ms; simpl; [discriminate|].
  assert (Hr : no_digit r = true).
  { unfold no_digit in *. simpl in Hs. apply andb_prop in Hs. tauto. }
  destruct skip as [|k]; [|apply (IH Hr)].
  destruct (match_here (String c r)) as [[m' r']|] eqn:E.
  - intros H. injection H as -> _. exact (match_here_no_digit _ _ _ Hs E).
  - apply (IH Hr).
Qed.

(** C6: a text without any digit character (the empty text and a text of
    commas included) gives [None]; [extract_price] is a total function, the
    [ValueError] of [float] being turned into [None]. *)
Theorem extract_price_no_digit (text : string) :
  no_digit text = true -> extract_price text = None.
Proof.
  intros H. unfold extract_price.
  destruct (findall text) as [|m ms] eqn:E; [reflexivity|].
  exact (findall_from_no_digit text H 0%nat m ms E).
Qed.

Lemma extract_price_no_digit_witness :
  no_digit ",,," = true /\ extract_price ",,," = None.
Proof.
  split; [reflexivity | apply (extract_price_no_digit ",,,"); reflexivity].
Defined.

Section PriceString.

Import Text.

Lemma span_stops (p : ascii -> bool) (a r : string) :
  forallb_str p a = true ->
  (r = EmptyString \/ exists c r', r = String c r' /\ p c = false) ->
  span p (a ++ r) = (a, r).
Proof.
  intros Ha Hr. induction a as [|c a IH]; simpl.
  - destruct Hr as [-> | (c & r' & -> & Hc)]; simpl; [reflexivity|].
    now rewrite Hc.
  - simpl in Ha. apply andb_prop in Ha as [Hc Ha].
    rewrite Hc, (IH Ha). reflexivity.
Qed.

Lemma remove_commas_digits (s : string) :
  forallb_str is_digit s = true -> remove_commas s = s.
Proof.
  induction s as [|c r IH]; simpl; [reflexivity|].
  intros H. apply andb_prop in H as [Hc Hr].
  assert (E : is_comma c = false).
  { unfold is_comma. destruct (Ascii.eqb c ",") eqn:E; [|reflexivity].
    apply Ascii.eqb_eq in E. subst c. discriminate Hc. }
  now rewrite E, (IH Hr).
Qed.

Lemma remove_commas_run (s : string) :
  forallb_str is_digit_or_comma s = true ->
  forallb_str is_digit (remove_commas s) = true.
Proof.
  induction s as [|c r IH]; simpl; [reflexivity|].
  intros H. apply andb_prop in H as [Hc Hr].
  destruct (is_comma c) eqn:E; simpl; [auto|].
  unfold is_digit_or_comma in Hc. rewrite E, orb_false_r in Hc.
  now rewrite Hc, (IH Hr).
Qed.

(** What [span] leaves starts with a character that fails the test. *)
Lemma span_rest (p : ascii -> bool) (s : string) :
  snd (span p s) = EmptyString
  \/ exists c r', snd (span p s) = String c r' /\ p c = false.
Proof.
  induction s as [|c r IH]; simpl; [now left|].
  destruct (p c) eqn:E; simpl.
  - destruct (span p r) as [a b]; simpl in *. exact IH.
  - right. exists c. exists r. now split.
Qed.

(** [float] on digits, a point or none, and digits. *)
Lemma float_decimal (ip f : string) (point : bool) :
  forallb_str is_digit ip = true ->
  forallb_str is_digit f = true ->
  (point = false -> f = EmptyString) ->
  PyFloat.float (ip ++ (if point then String "." f else f)) =
    if (String.length ip + String.length f =? 0)%nat then None
    else Some (PyFloat.of_decimal (PyFloat.digits_value 0 (ip ++ f))
                 (String.length f)).
Proof.
  intros Hip Hf Hpoint. unfold PyFloat.float.
  destruct point.
  - rewrite (span_stops is_digit ip (String "." f) Hip).
    + now rewrite Hf.
    + right. exists "."%char. exists f. now split.
  - rewrite (Hpoint eq_refl).
    rewrite (span_stops is_digit ip EmptyString Hip) by now left.
    reflexivity.
Qed.

(** What [extract_price] hands to [float]: digits, a point or none, and
    digits; [float] refuses it only when it holds no digit. *)
Lemma match_here_price_str (s m r : string) :
  match_here s = Some (m, r) ->
  exists (ip f : string) (point : bool),
    remove_commas m = (ip ++ (if point then String "." f else f))%string
    /\ forallb_str is_digit ip = true
    /\ forallb_str is_digit f = true
    /\ PyFloat.float (remove_commas m) =
         if (String.length ip + String.length f =? 0)%nat then None
         else Some (PyFloat.of_decimal (PyFloat.digits_value 0 (ip ++ f))
                      (String.length f)).
Proof.
  unfold match_here.
  pose proof (span_forallb is_digit_or_comma s) as Ha.
  destruct (span is_digit_or_comma s) as [a r1] eqn:Er; simpl in Ha.
  destruct a as [|c a']; [discriminate|].
  destruct (optional_dot_cases r1) as [(r' & Hr1 & E) | E]; rewrite E.
  - pose proof (span_forallb is_digit r') as Hf.
    destruct (span is_digit r') as [f r3]; simpl in Hf.
    intros H. injection H as <- <-.
    exists (remove_commas (String c a')), f, true.
    assert (Hm : remove_commas (String c a' ++ String "." f)
                 = (remove_commas (String c a') ++ String "." f)%string).
    { rewrite remove_commas_append. f_equal. simpl.
      now rewrite (remove_commas_digits f Hf). }
    change (String c (a' ++ String "." f))
      with (String c a' ++ String "." f)%string.
    rewrite Hm. split; [reflexivity|].
    split; [now apply remove_commas_run|]. split; [exact Hf|].
    apply (float_decimal _ f true); auto using remove_commas_run.
    discriminate.
  - assert (Es : span is_digit r1 = (EmptyString, r1)).
    { destruct (span_rest is_digit_or_comma s) as [Hr | (c1 & r1' & Hr & Hc)];
        rewrite Er in Hr; simpl in Hr; subst r1; [reflexivity|].
      simpl. unfold is_digit_or_comma in Hc. apply orb_false_elim in Hc.
      now rewrite (proj1 Hc). }
    rewrite Es. intros H. injection H as <- <-.
    exists (remove_commas (String c a')), EmptyString, false.
    assert (Hm : remove_commas (String c a' ++ EmptyString)
                 = (remove_commas (String c a') ++ EmptyString)%string).
    { now rewrite remove_commas_append. }
    change (String c (a' ++ EmptyString))
      with (String c a' ++ EmptyString)%string.
    rewrite Hm. split; [reflexivity|].
    split; [now apply remove_commas_run|]. split; [reflexivity|].
    apply (float_decimal _ EmptyString false); auto using remove_commas_run.
Qed.

End PriceString.

Lemma findall_from_head (s : string) :
  forall skip m ms,
    findall_from skip s = m :: ms ->
    exists s' r, match_here s' = Some (m, r).
Proof.
  induction s as [|c r IH]; intros skip m ms; simpl; [discriminate|].
  destruct skip as [|k]; [|apply IH].
  destruct (match_here (String c r)) as [[m' r']|] eqn:E.
  - intros H. injection H as -> _. eauto.
  - apply IH.
Qed.

(** A price is the binary64 value nearest to a decimal number that is not
    negative: never a NaN, never below zero. *)
Lemma extract_price_decimal (text : string) (v : spec_float) :
  extract_price text = Some v ->
  exists ip f : string,
    Text.forallb_str Text.is_digit ip = true
    /\ Text.forallb_str Text.is_digit f = true
    /\ v = PyFloat.of_decimal (PyFloat.digits_value 0 (ip ++ f))
                              (String.length f).
Proof.
  unfold extract_price.
  destruct (findall text) as [|m ms] eqn:E; [discriminate|].
  destruct (findall_from_head _ _ _ _ E) as (s' & r & Hm).
  destruct (match_here_price_str _ _ _ Hm) as (ip & f & point & _ & Hip & Hf & Hv).
  rewrite Hv.
  destruct (String.length ip + String.length f =? 0)%nat; [discriminate|].
  intros H. injection H as <-. eauto.
Qed.

(** A text that starts with characters outside [[\d,]]: the first match is
    the one found after them. *)
Lemma findall_skips_prefix (pre s m r : string) :
  Text.forallb_str (fun c => negb (Text.is_digit_or_comma c)) pre = true ->
  match_here s = Some (m, r) ->
  exists ms, findall (pre ++ s) = m :: ms.
Proof.
  unfold findall. intros Hpre Hm.
  induction pre as [|c p IH]; simpl.
  - destruct s as [|c r0]; [discriminate|].
    simpl. rewrite Hm. eauto.
  - simpl in Hpre. apply andb_prop in Hpre as [Hc Hp].
    assert (E : match_here (String c (p ++ s)) = None).
    { unfold match_here. simpl.
      destruct (Text.is_digit_or_comma c); [discriminate | reflexivity]. }
    rewrite E. auto.
Qed.

(** Only the first match is parsed. *)
Lemma extract_price_first_match (pre s m r : string) :
  Text.forallb_str (fun c => negb (Text.is_digit_or_comma c)) pre = true ->
  match_here s = Some (m, r) ->
  extract_price (pre ++ s) = PyFloat.float (Text.remove_commas m).
Proof.
  intros Hpre Hm. unfold extract_price.
  destruct (findall_skips_prefix pre s m r Hpre Hm) as [ms ->]. reflexivity.
Qed.

(** ** The price loop *)

Section PriceLoop.

Variable soup : Soup.

Lemma price_loop_stops (l1 : list string) (s : string) (l2 : list string)
    (text : string) (st : option spec_float * option string) :
  (forall s', In s' l1 -> yields_price soup s' = false) ->
  soup s = Some text ->
  truthy_price (extract_price text) = true ->
  price_loop soup (l1 ++ s :: l2) st = (extract_price text, Some text).
Proof.
  intros Hl1 Hs Ht. revert st.
  induction l1 as [|a l1 IH]; intros st; simpl.
  - now rewrite Hs, Ht.
  - assert (Ha : yields_price soup a = false) by (apply Hl1; now left).
    unfold yields_price in Ha.
    destruct (soup a) as [ta|].
    + rewrite Ha. apply IH. intros s' Hin. apply Hl1. now right.
    + apply IH. intros s' Hin. apply Hl1. now right.
Qed.

(** When no selector stops the loop, the variables hold what the last
    matching selector left in them. *)
Lemma price_loop_falls_through (selectors : list string)
    (st : option spec_float * option string) :
  (forall s, In s selectors -> yields_price soup s = false) ->
  price_loop soup selectors st =
    match last_match soup selectors with
    | Some text => (extract_price text, Some text)
    | None => st
    end.
Proof.
  revert st.
  induction selectors as [|a l IH]; intros st Hall; simpl; [reflexivity|].
  assert (Ha : yields_price soup a = false) by (apply Hall; now left).
  assert (Hl : forall s, In s l -> yields_price soup s = false)
    by (intros s Hin; apply Hall; now right).
  unfold yields_price in Ha.
  destruct (soup a) as [ta|].
  - rewrite Ha, (IH _ Hl). now destruct (last_match soup l).
  - rewrite (IH _ Hl). now destruct (last_match soup l).
Qed.

Lemma price_loop_true_iff (selectors : list string)
    (st : option spec_float * option string) :
  truthy_price (fst st) = false ->
  truthy_price (fst (price_loop soup selectors st))
  = existsb (yields_price soup) selectors.
Proof.
  revert st.
  induction selectors as [|a l IH]; intros st Hst; simpl; [exact Hst|].
  unfold yields_price at 1.
  destruct (soup a) as [ta|].
  - destruct (truthy_price (extract_price ta)) eqn:E; simpl.
    + exact E.
    + apply IH. exact E.
  - simpl. apply IH. exact Hst.
Qed.

End PriceLoop.

Lemma status_not_found_iff (soup : Soup) (now u : string) (sel : option string) :
  status (scrape_generic_product (Fetched soup) now u sel) = "price_not_found"
  <-> truthy_price (fst (resolve_price soup (price_selectors sel))) = false.
Proof.
  unfold scrape_generic_product.
  destruct (resolve_price soup (price_selectors sel)) as [p ptext]; simpl.
  destruct (truthy_price p); split; intros H; try reflexivity; discriminate H.
Qed.

(** C2, as the code has it: the loop stops at the first selector whose text
    parses to a number that is not zero, and returns that number with the
    text; a text that parses to zero does not stop the loop, which goes on
    with the following selectors. *)
Theorem price_loop_stops_at_first_nonzero (soup : Soup)
    (l1 : list string) (s : string) (l2 : list string)
    (text : string) (v : spec_float) :
  (forall s', In s' l1 -> yields_price soup s' = false) ->
  soup s = Some text ->
  extract_price text = Some v ->
  (PyFloat.truthy v = true ->
     resolve_price soup (l1 ++ s :: l2) = (Some v, Some text))
  /\ (PyFloat.truthy v = false ->
        forall st, price_loop soup (s :: l2) st
                   = price_loop soup l2 (Some v, Some text)).
Proof.
  intros Hl1 Hs Hv. split; intros Ht.
  - unfold resolve_price. rewrite <- Hv.
    apply price_loop_stops; auto. now rewrite Hv.
  - intros st. simpl. rewrite Hs, Hv. simpl. now rewrite Ht.
Qed.

Lemma price_loop_stops_at_first_nonzero_witness :
  resolve_price widget ([".sale"] ++ ".price" :: [".a-price-whole"])
  = (Some (Prim2SF 19.99%float), Some "$19.99").
Proof.
  refine (proj1 (price_loop_stops_at_first_nonzero widget
                   [".sale"] ".price" [".a-price-whole"] "$19.99"
                   (Prim2SF 19.99%float) _ _ _) _).
  - intros s' [<- | []]. reflexivity.
  - reflexivity.
  - vm_compute. reflexivity.
  - vm_compute. reflexivity.
Defined.

(** The text ["0"] of [.price] parses to zero, the loop goes on and the
    price returned is the 5 of the next selector. *)
Lemma stops_at_first_parsed_fails :
  ~ stops_at_first_parsed free_then_priced common_selectors.
Proof.
  intros H.
  specialize (H [] ".price" (tl common_selectors) "0" PyFloat.zero
                eq_refl (fun s (Hin : In s []) => match Hin with end)
                eq_refl eq_refl).
  vm_compute in H. discriminate H.
Qed.

(** C7, as the code has it: the selector of the caller, when it is given
    and not empty, is scanned before the built-in ones; the selectors are
    scanned in order up to the first that parses to a number that is not
    zero; a selector whose text does not parse does not end the scan; and
    the status is [price_not_found] exactly when no selector of the list
    parses to a number that is not zero. *)
Theorem selector_chain_order (soup : Soup) (sel : option string) :
  (forall c r, sel = Some (String c r) ->
     price_selectors sel = String c r :: common_selectors)
  /\ (forall l1 s l2 text,
        price_selectors sel = l1 ++ s :: l2 ->
        (forall s', In s' l1 -> yields_price soup s' = false) ->
        soup s = Some text ->
        truthy_price (extract_price text) = true ->
        resolve_price soup (price_selectors sel) = (extract_price text, Some text))
  /\ (forall s rest st text,
        soup s = Some text ->
        extract_price text = None ->
        price_loop soup (s :: rest) st = price_loop soup rest (None, Some text))
  /\ (forall now u,
        status (scrape_generic_product (Fetched soup) now u sel) = "price_not_found"
        <-> forall s, In s (price_selectors sel) -> yields_price soup s = false).
Proof.
  repeat split.
  - intros c r ->. reflexivity.
  - intros l1 s l2 text -> Hl1 Hs Ht. now apply price_loop_stops.
  - intros s rest st text Hs Hp. simpl. now rewrite Hs, Hp.
  - rewrite status_not_found_iff. unfold resolve_price.
    rewrite price_loop_true_iff by reflexivity.
    intros H s Hin. destruct (yields_price soup s) eqn:E; [|reflexivity].
    rewrite <- H. symmetry. apply existsb_exists. eauto.
  - rewrite status_not_found_iff. unfold resolve_price.
    rewrite price_loop_true_iff by reflexivity.
    intros H. destruct (existsb _ _) eqn:E; [|reflexivity].
    apply existsb_exists in E as (s & Hin & Hy). rewrite (H s Hin) in Hy.
    discriminate Hy.
Qed.

(** Only the third built-in selector matches: the first two are passed
    over and its price is returned. *)
Lemma selector_chain_order_witness :
  resolve_price third_builtin (price_selectors None)
  = (Some (Prim2SF 42.5%float), Some "USD 42.50").
Proof.
  refine (proj1 (proj2 (selector_chain_order third_builtin None))
            [".price"; ".a-price-whole"] "[data-price]"
            (tl (tl (tl common_selectors))) "USD 42.50" _ _ _ _).
  - reflexivity.
  - intros s' [<- | [<- | []]]; reflexivity.
  - reflexivity.
  - vm_compute. reflexivity.
Defined.

(** [.price] holds ["$0.00"]: a selector parses to a number and the status
    is [price_not_found] all the same. *)
Lemma not_found_only_if_unparsed_fails :
  ~ not_found_only_if_unparsed free_sample None.
Proof.
  intros H.
  specialize (H "2024-05-01 12:00:00" "https://x.com/free-sample" eq_refl
                ".price" (or_introl eq_refl)).
  vm_compute in H. discriminate H.
Qed.

(** C10: when no selector parses to a number that is not zero and the text
    of the last selector that matches parses to zero, the status is
    [price_not_found] while the price is 0 and [price_text] is that text:
    such a status does not mean that the two fields are empty. *)
Theorem zero_price_reported_not_found (soup : Soup) (sel : option string)
    (now u text : string) :
  (forall s, In s (price_selectors sel) -> yields_price soup s = false) ->
  last_match soup (price_selectors sel) = Some text ->
  extract_price text = Some PyFloat.zero ->
  let o := scrape_generic_product (Fetched soup) now u sel in
  status o = "price_not_found"
  /\ price o = Some PyFloat.zero
  /\ price_text o = Some text.
Proof.
  intros Hall Hlast Hzero. cbv zeta. unfold scrape_generic_product, resolve_price.
  rewrite (price_loop_falls_through soup _ _ Hall), Hlast, Hzero.
  simpl. auto.
Qed.

Lemma zero_price_reported_not_found_witness :
  let o := scrape_generic_product (Fetched free_sample)
             "2024-05-01 12:00:00" "https://x.com/free-sample" None in
  status o = "price_not_found"
  /\ price o = Some PyFloat.zero
  /\ price_text o = Some "$0.00".
Proof.
  apply (zero_price_reported_not_found free_sample None
           "2024-05-01 12:00:00" "https://x.com/free-sample" "$0.00").
  - intros s Hin. simpl in Hin.
    repeat (destruct Hin as [<- | Hin]; [reflexivity|]). destruct Hin.
  - reflexivity.
  - reflexivity.
Defined.

(** C4: when the request fails, an observation is returned whose status is
    ["error: "] followed by the message of the exception, whose price and
    price text are empty and whose title is the URL. *)
Theorem request_failure_is_recorded (detail now u : string)
    (sel : option string) :
  let o := scrape_generic_product (RequestException detail) now u sel in
  status o = ("error: " ++ detail)%string
  /\ Text.startswith "error" (status o) = true
  /\ price o = None
  /\ price_text o = None
  /\ title o = u
  /\ url o = u
  /\ timestamp o = now.
Proof.
  cbv zeta. simpl. repeat split.
Qed.

(** ** The title *)

Section Title.

Import Text.

Lemma split_not_nil (sep : ascii) (s : string) : split sep s <> [].
Proof.
  destruct s as [|c r]; simpl; [discriminate|].
  destruct (Ascii.eqb c sep); [discriminate|].
  destruct (split sep r); discriminate.
Qed.

Lemma split_no_separator (s : string) :
  forallb_str no_slash s = true -> split "/" s = [s].
Proof.
  induction s as [|c r IH]; simpl; [reflexivity|].
  intros H. apply andb_prop in H as [Hc Hr].
  unfold no_slash in Hc. apply negb_true_iff in Hc. rewrite Hc.
  now rewrite (IH Hr).
Qed.

Lemma last_cons_cons {A : Type} (x y : A) (l : list A) (d : A) :
  last (x :: y :: l) d = last (y :: l) d.
Proof. reflexivity. Qed.

(** Behind a separator there are two segments at least. *)
Lemma split_two_segments (p s : string) :
  exists a b l, split "/" (p ++ String "/" s) = a :: b :: l.
Proof.
  induction p as [|c r IH]; simpl.
  - destruct (split "/" s) as [|b l] eqn:E.
    + now apply split_not_nil in E.
    + eauto.
  - destruct IH as (a & b & l & ->).
    destruct (Ascii.eqb c "/"); eauto.
Qed.

(** The last segment of a URL that holds a separator is what follows the
    last one. *)
Lemma last_split_after_slash (p seg : string) :
  forallb_str no_slash seg = true ->
  last (split "/" (p ++ String "/" seg)) EmptyString = seg.
Proof.
  intros Hseg. induction p as [|c r IH]; simpl.
  - rewrite (split_no_separator seg Hseg). reflexivity.
  - destruct (split_two_segments r seg) as (a & b & l & E).
    rewrite E in *.
    destruct (Ascii.eqb c "/"); rewrite ?last_cons_cons in *; exact IH.
Qed.

Lemma last_split_no_slash (seg : string) :
  forallb_str no_slash seg = true ->
  last (split "/" seg) EmptyString = seg.
Proof.
  intros Hseg. now rewrite (split_no_separator seg Hseg).
Qed.

Lemma take_length (n : nat) (s : string) : String.length (take n s) <= n.
Proof.
  revert s. induction n as [|n IH]; intros [|c r]; simpl; auto with arith.
Qed.

Lemma take_empty_iff (n : nat) (s : string) :
  take (S n) s = EmptyString <-> s = EmptyString.
Proof.
  destruct s; simpl; split; intros H; try reflexivity; discriminate H.
Qed.

End Title.

Lemma resolve_title_fallback (soup : Soup) (u : string) :
  title_loop soup title_selectors = None
  \/ title_loop soup title_selectors = Some EmptyString ->
  resolve_title soup u = url_fallback u.
Proof.
  unfold resolve_title. intros [-> | ->]; reflexivity.
Qed.

(** C3, as the code has it: when no title selector matches, or the first
    that matches holds an empty text, the title is the text that follows the
    last ['/'] of the URL (the whole URL when it has none), cut to 50
    characters; that title is not empty when this last segment is not, and
    ["https://x.com/cool-gadget"] gives ["cool-gadget"]. *)
Theorem title_falls_back_to_url_segment (soup : Soup) (now u : string)
    (sel : option string) :
  title_loop soup title_selectors = None
  \/ title_loop soup title_selectors = Some EmptyString ->
  let t := title (scrape_generic_product (Fetched soup) now u sel) in
  t = Text.take 50 (last (Text.split "/" u) EmptyString)
  /\ String.length t <= 50
  /\ (forall p seg,
        Text.forallb_str no_slash seg = true ->
        u = (p ++ String "/" seg)%string \/ u = seg ->
        t = Text.take 50 seg /\ (seg <> EmptyString -> t <> EmptyString))
  /\ (u = "https://x.com/cool-gadget" -> t = "cool-gadget").
Proof.
  intros Hno. cbv zeta.
  assert (Ht : title (scrape_generic_product (Fetched soup) now u sel)
               = url_fallback u).
  { unfold scrape_generic_product.
    destruct (resolve_price soup (price_selectors sel)); simpl.
    now apply resolve_title_fallback. }
  rewrite Ht. unfold url_fallback.
  split; [reflexivity|]. split; [apply take_length|]. split.
  - intros p seg Hseg Hu.
    assert (Hl : last (Text.split "/" u) EmptyString = seg).
    { destruct Hu as [-> | ->].
      - now apply last_split_after_slash.
      - now apply last_split_no_slash. }
    rewrite Hl. split; [reflexivity|].
    intros Hne Hempty. apply Hne. now apply take_empty_iff in Hempty.
  - intros ->. reflexivity.
Qed.

Lemma title_falls_back_to_url_segment_witness :
  title (scrape_generic_product (Fetched untitled) "2024-05-01 12:00:00"
           "https://x.com/cool-gadget" None) = "cool-gadget".
Proof.
  refine (proj2 (proj2 (proj2 (title_falls_back_to_url_segment untitled
            "2024-05-01 12:00:00" "https://x.com/cool-gadget" None _))) _).
  - left. reflexivity.
  - reflexivity.
Defined.

(** A URL that ends with ['/'] has an empty last segment: the page without
    a title element gets the empty title. *)
Lemma title_never_empty_fails :
  ~ title_never_empty untitled "https://x.com/cool-gadget/".
Proof.
  intros H. apply (H "2024-05-01 12:00:00" None). reflexivity.
Qed.

(** ** The store *)

Lemma key_eqb_eq (k1 k2 : string * string) : key_eqb k1 k2 = true <-> k1 = k2.
Proof.
  destruct k1 as [u1 t1], k2 as [u2 t2]. unfold key_eqb; simpl.
  rewrite andb_true_iff, !String.eqb_eq. split.
  - intros [-> ->]. reflexivity.
  - intros H. injection H as -> ->. auto.
Qed.

Lemma key_eqb_refl (k : string * string) : key_eqb k k = true.
Proof. now apply key_eqb_eq. Qed.

Lemma has_key_exists (k : string * string) (df : DataFrame string) :
  existsb (has_key k) df = true <-> In k (map key df).
Proof.
  rewrite existsb_exists, in_map_iff. unfold has_key.
  split; intros (r & H1 & H2).
  - apply key_eqb_eq in H2. eauto.
  - exists r. split; [assumption|]. apply key_eqb_eq. now symmetry.
Qed.

Lemma last_with_key_none (k : string * string) (df : DataFrame string) :
  last_with_key k df = None <-> existsb (has_key k) df = false.
Proof.
  induction df as [|r rest IH]; simpl; [tauto|].
  rewrite orb_false_iff.
  destruct (last_with_key k rest) as [r'|].
  - split; [discriminate|]. intros [_ H]. apply IH in H. discriminate H.
  - destruct (has_key k r); split; try discriminate; try tauto.
    intros [H _]. discriminate H.
Qed.

Lemma last_with_key_some (k : string * string) (df : DataFrame string)
    (r : Observation) :
  last_with_key k df = Some r -> In r df /\ key r = k.
Proof.
  induction df as [|a rest IH]; simpl; [discriminate|].
  destruct (last_with_key k rest) as [r'|].
  - intros H. injection H as ->. destruct (IH eq_refl). auto.
  - destruct (has_key k a) eqn:E; [|discriminate].
    intros H. injection H as ->. unfold has_key in E.
    apply key_eqb_eq in E. auto.
Qed.

Lemma last_with_key_app (k : string * string) (df1 df2 : DataFrame string) :
  last_with_key k (df1 ++ df2) =
    match last_with_key k df2 with
    | Some r => Some r
    | None => last_with_key k df1
    end.
Proof.
  induction df1 as [|a rest IH]; simpl.
  - now destruct (last_with_key k df2).
  - rewrite IH. now destruct (last_with_key k df2).
Qed.

Lemma drop_duplicates_incl (df : DataFrame string) (r : Observation) :
  In r (drop_duplicates df) -> In r df.
Proof.
  induction df as [|a rest IH]; simpl; [tauto|].
  destruct (existsb (has_key (key a)) rest); simpl; tauto.
Qed.

(** The rows kept are the last rows of their keys. *)
Lemma drop_duplicates_keeps_last (df : DataFrame string) (r : Observation) :
  In r (drop_duplicates df) <-> last_with_key (key r) df = Some r.
Proof.
  induction df as [|a rest IH]; simpl.
  - split; [tauto | discriminate].
  - destruct (existsb (has_key (key a)) rest) eqn:Ea.
    + rewrite IH.
      destruct (last_with_key (key r) rest) as [r'|] eqn:El; [tauto|].
      split; [discriminate|].
      destruct (has_key (key r) a) eqn:Eh; [|discriminate].
      intros H. injection H as ->.
      apply last_with_key_none in El. congruence.
    + simpl. rewrite IH.
      destruct (last_with_key (key r) rest) as [r'|] eqn:El.
      * split; [|tauto]. intros [-> | H]; [|exact H].
        apply last_with_key_none in Ea. congruence.
      * split.
        -- intros [-> | H]; [|discriminate H].
           unfold has_key. now rewrite key_eqb_refl.
        -- destruct (has_key (key r) a); [|discriminate].
           intros H. injection H as ->. now left.
Qed.

Lemma drop_duplicates_unique (df : DataFrame string) :
  unique_keys (drop_duplicates df).
Proof.
  unfold unique_keys.
  induction df as [|a rest IH]; simpl; [constructor|].
  destruct (existsb (has_key (key a)) rest) eqn:Ea; [exact IH|].
  simpl. constructor; [|exact IH].
  intros Hin. apply in_map_iff in Hin as (r & Hk & Hr).
  apply drop_duplicates_incl in Hr.
  assert (H : existsb (has_key (key a)) rest = true).
  { apply has_key_exists. apply in_map_iff. eauto. }
  congruence.
Qed.

(** A frame that satisfies the invariant is left as it is. *)
Lemma drop_duplicates_fixed (df : DataFrame string) :
  unique_keys df -> drop_duplicates df = df.
Proof.
  unfold unique_keys.
  induction df as [|a rest IH]; simpl; [reflexivity|].
  intros H. inversion H as [|k ks Hnot Hrest]; subst.
  destruct (existsb (has_key (key a)) rest) eqn:Ea.
  - apply has_key_exists in Ea. contradiction.
  - now rewrite (IH Hrest).
Qed.

(** Every key of the frame is still there. *)
Lemma drop_duplicates_keys (df : DataFrame string) (k : string * string) :
  In k (map key (drop_duplicates df)) <-> In k (map key df).
Proof.
  split.
  - rewrite !in_map_iff. intros (r & Hk & Hr).
    apply drop_duplicates_incl in Hr. eauto.
  - intros Hin. apply has_key_exists in Hin.
    destruct (last_with_key k df) as [r|] eqn:El.
    + destruct (last_with_key_some _ _ _ El) as [_ Hk].
      apply in_map_iff. exists r. split; [exact Hk|].
      apply drop_duplicates_keeps_last. now rewrite Hk.
    + apply last_with_key_none in El. congruence.
Qed.

(** One row appended: the rows of its key go, the row comes last. *)
Lemma drop_duplicates_snoc (df : DataFrame string) (o : Observation) :
  drop_duplicates (df ++ [o]) =
    filter (fun r => negb (has_key (key o) r)) (drop_duplicates df) ++ [o].
Proof.
  induction df as [|a rest IH]; simpl; [reflexivity|].
  rewrite existsb_app. simpl. rewrite orb_false_r.
  assert (Hsym : has_key (key a) o = has_key (key o) a).
  { unfold has_key. destruct (key_eqb (key a) (key o)) eqn:E.
    - apply key_eqb_eq in E. rewrite E. now rewrite key_eqb_refl.
    - destruct (key_eqb (key o) (key a)) eqn:E'; [|reflexivity].
      apply key_eqb_eq in E'. rewrite E', key_eqb_refl in E. discriminate E. }
  rewrite Hsym.
  destruct (existsb (has_key (key a)) rest); simpl.
  - exact IH.
  - destruct (has_key (key o) a); simpl; now rewrite IH.
Qed.

Lemma filter_length_le {A : Type} (p : A -> bool) (l : list A) :
  List.length (filter p l) <= List.length l.
Proof.
  induction l as [|a l IH]; simpl; [auto|].
  destruct (p a); simpl; lia.
Qed.

(** Removing a key that is present removes one row at least, and exactly
    one under the invariant. *)
Lemma filter_key_length (df : DataFrame string) (k : string * string) :
  In k (map key df) ->
  S (List.length (filter (fun r => negb (has_key k r)) df)) <= List.length df
  /\ (unique_keys df ->
      S (List.length (filter (fun r => negb (has_key k r)) df)) = List.length df).
Proof.
  unfold unique_keys.
  induction df as [|a rest IH]; simpl; [tauto|].
  intros Hin.
  destruct (has_key k a) eqn:Ea; simpl.
  - split.
    + pose proof (filter_length_le (fun r => negb (has_key k r)) rest). lia.
    + intros Hu. inversion Hu as [|x xs Hnot Hrest]; subst.
      f_equal.
      unfold has_key in Ea. apply key_eqb_eq in Ea. subst k.
      clear -Hnot. induction rest as [|b rest IH]; simpl; [reflexivity|].
      simpl in Hnot.
      destruct (has_key (key a) b) eqn:Eb; simpl.
      * unfold has_key in Eb. apply key_eqb_eq in Eb. symmetry in Eb. tauto.
      * f_equal. apply IH. tauto.
  - destruct Hin as [Hk | Hin].
    + unfold has_key in Ea. rewrite <- Hk, key_eqb_refl in Ea. discriminate Ea.
    + destruct (IH Hin) as [Hle Heq]. split; [lia|].
      intros Hu. inversion Hu as [|x xs Hnot Hrest]; subst.
      now rewrite (Heq Hrest).
Qed.

Lemma drop_duplicates_length (df : DataFrame string) :
  List.length (drop_duplicates df) <= List.length df.
Proof.
  induction df as [|a rest IH]; simpl; [auto|].
  destruct (existsb (has_key (key a)) rest); simpl; lia.
Qed.

Lemma convert_timestamps_rows `{Pandas} (df : DataFrame string)
    (df' : DataFrame Timestamp) :
  convert_timestamps df = Some df' -> Forall2 converted df df'.
Proof.
  revert df'. induction df as [|r rest IH]; simpl; intros df' Hc.
  - injection Hc as <-. constructor.
  - destruct (to_datetime (timestamp r)) as [t|] eqn:Et; [|discriminate].
    destruct (convert_timestamps rest) as [rest'|]; [|discriminate].
    injection Hc as <-. constructor; [|now apply IH].
    unfold converted; simpl. auto 10.
Qed.


Lemma Forall2_In_r {A B : Type} (R : A -> B -> Prop) (l : list A) (l' : list B) :
  Forall2 R l l' -> forall y, In y l' -> exists x, In x l /\ R x y.
Proof.
  induction 1 as [|a b l l' Hab _ IH]; simpl; [tauto|].
  intros y [<- | Hin]; [eauto|].
  destruct (IH y Hin) as (x & Hx & Hxy). eauto.
Qed.

Lemma save_to_csv_writes `{Pandas} (file : File) (data df : DataFrame string)
    (file' : File) :
  save_to_csv file data = Some (df, file') -> file' = Some (to_csv df).
Proof.
  unfold save_to_csv.
  destruct file as [f|]; [destruct (read_csv f)|]; intros E;
    try discriminate E; now injection E as <- <-.
Qed.

(** C1: the frame [save_to_csv] returns and writes is the existing rows
    followed by the new ones with [drop_duplicates] applied: it has one row
    at most for a key, that row is the last of its key in the concatenation
    (a new row before an old one, the later of two new rows), and one
    observation appended under a key that is already there takes the place
    of the row of that key without making the frame longer. *)
Theorem save_to_csv_keeps_invariant `{Pandas} (f : csv)
    (existing new : DataFrame string) :
  read_csv f = Some existing ->
  let merged := drop_duplicates (existing ++ new) in
  save_to_csv (Some f) new = Some (merged, Some (to_csv merged))
  /\ unique_keys merged
  /\ (forall k, In k (map key merged) <-> In k (map key (existing ++ new)))
  /\ (forall r, In r merged <-> last_with_key (key r) (existing ++ new) = Some r)
  /\ (forall k r, last_with_key k new = Some r -> In r merged)
  /\ (forall k r, last_with_key k new = None ->
                  last_with_key k existing = Some r -> In r merged)
  /\ (forall o, new = [o] -> In (key o) (map key existing) ->
        In o merged
        /\ (forall r, In r merged -> key r = key o -> r = o)
        /\ List.length merged <= List.length existing
        /\ (unique_keys existing -> List.length merged = List.length existing)).
Proof.
  intros Hread merged.
  split; [|split; [|split; [|split; [|split; [|split]]]]].
  - unfold save_to_csv. now rewrite Hread.
  - apply drop_duplicates_unique.
  - intros k. apply drop_duplicates_keys.
  - intros r. apply drop_duplicates_keeps_last.
  - intros k r Hl. destruct (last_with_key_some _ _ _ Hl) as [_ Hk].
    apply drop_duplicates_keeps_last.
    now rewrite last_with_key_app, Hk, Hl.
  - intros k r Hn He. destruct (last_with_key_some _ _ _ He) as [_ Hk].
    apply drop_duplicates_keeps_last.
    now rewrite last_with_key_app, Hk, Hn.
  - intros o -> Hkey. subst merged.
    split; [|split; [|split]].
    + apply drop_duplicates_keeps_last.
      rewrite last_with_key_app. simpl. unfold has_key.
      now rewrite key_eqb_refl.
    + intros r Hr Hk.
      apply drop_duplicates_keeps_last in Hr.
      rewrite last_with_key_app, Hk in Hr. simpl in Hr.
      unfold has_key in Hr. rewrite key_eqb_refl in Hr. congruence.
    + rewrite drop_duplicates_snoc, length_app. simpl.
      assert (Hin : In (key o) (map key (drop_duplicates existing)))
        by now apply drop_duplicates_keys.
      destruct (filter_key_length _ _ Hin) as [Hle _].
      pose proof (drop_duplicates_length existing). lia.
    + intros Hu.
      rewrite drop_duplicates_snoc, length_app. simpl.
      rewrite (drop_duplicates_fixed _ Hu).
      destruct (filter_key_length _ _ Hkey) as [_ Heq].
      specialize (Heq Hu). lia.
Qed.

(** C9, as the code has it: with no data file [save_to_csv] does not
    raise; it returns and writes the new observations with
    [drop_duplicates] applied, as it does over a file that holds no row.
    Every row comes from the new observations, every key of theirs is
    there, the row kept for a key is the last new observation of that key,
    and the new observations are returned as they are when their keys
    differ.  [load_data] then returns [False] and leaves [self.df] at
    [None]. *)
Theorem save_to_csv_missing_file `{Pandas} (new : DataFrame string) :
  save_to_csv None new
    = Some (drop_duplicates new, Some (to_csv (drop_duplicates new)))
  /\ (forall r, In r (drop_duplicates new) -> In r new)
  /\ (forall k, In k (map key (drop_duplicates new)) <-> In k (map key new))
  /\ (forall r, In r (drop_duplicates new)
                <-> last_with_key (key r) new = Some r)
  /\ unique_keys (drop_duplicates new)
  /\ (unique_keys new -> drop_duplicates new = new)
  /\ (forall f, read_csv f = Some [] ->
        save_to_csv (Some f) new = save_to_csv None new)
  /\ load_data None = Some (false, None).
Proof.
  split; [|split; [|split; [|split; [|split; [|split; [|split]]]]]].
  - reflexivity.
  - intros r. apply drop_duplicates_incl.
  - intros k. apply drop_duplicates_keys.
  - intros r. apply drop_duplicates_keeps_last.
  - apply drop_duplicates_unique.
  - apply drop_duplicates_fixed.
  - intros f Hf. unfold save_to_csv. now rewrite Hf.
  - reflexivity.
Qed.

Lemma save_to_csv_keeps_invariant_witness :
  @read_csv table_pandas two_days = Some two_days
  /\ @save_to_csv table_pandas (Some two_days)
       [sale_row "2024-05-02 12:00:00"]
     = Some ([widget_row "2024-05-01 12:00:00"; sale_row "2024-05-02 12:00:00"],
             Some [widget_row "2024-05-01 12:00:00";
                   sale_row "2024-05-02 12:00:00"])
  /\ List.length (drop_duplicates (two_days ++ [sale_row "2024-05-02 12:00:00"]))
     = List.length two_days.
Proof.
  pose proof (@save_to_csv_keeps_invariant table_pandas two_days two_days
                [sale_row "2024-05-02 12:00:00"] eq_refl) as W.
  cbv zeta in W.
  destruct W as (Hsave & _ & _ & _ & _ & _ & Hone).
  split; [reflexivity|]. split; [exact Hsave|].
  assert (Hin : In (key (sale_row "2024-05-02 12:00:00")) (map key two_days))
    by (simpl; right; left; reflexivity).
  destruct (Hone (sale_row "2024-05-02 12:00:00") eq_refl Hin)
    as (_ & _ & _ & Hlen).
  apply Hlen. unfold unique_keys. simpl.
  constructor.
  - simpl. intros [E | []]. discriminate E.
  - constructor; [simpl; tauto | constructor].
Defined.

Lemma save_to_csv_missing_file_witness :
  @save_to_csv table_pandas None two_days
  = Some (two_days, Some two_days).
Proof.
  exact (proj1 (@save_to_csv_missing_file table_pandas two_days)).
Defined.

(** Two new observations of one URL in one second, a price and then a
    failed request: the frame written holds the second alone. *)
Lemma appends_all_new_fails :
  ~ @appends_all_new table_pandas
      [widget_row "2024-05-02 12:00:00"; widget_timeout].
Proof.
  intros (df & file' & Hsave & Hall).
  vm_compute in Hsave. injection Hsave as <- _.
  destruct (proj2 (Hall (widget_row "2024-05-02 12:00:00"))
              (or_introl eq_refl)) as [E | []].
  vm_compute in E. discriminate E.
Qed.


(** ** Worked examples *)

(** The model of [float] agrees with the literals of the prover, which are
    read with the same rounding. *)
Example of_decimal_literal :
  PyFloat.of_decimal 123456 2 = Prim2SF 1234.56%float
  /\ PyFloat.of_decimal 1234 2 = Prim2SF 12.34%float
  /\ PyFloat.of_decimal 1 1 = Prim2SF 0.1%float
  /\ PyFloat.of_decimal 9007199254740993 0 = Prim2SF 9007199254740992%float.
Proof. vm_compute. repeat split. Qed.

(** The matches of [re.findall] on some texts: the later ones are found
    and left alone. *)
Example findall_matches :
  findall "$1,234.56 extra" = ["1,234.56"]
  /\ findall "12.34.56" = ["12.34"; "56"]
  /\ findall "Was $50, now $30" = ["50,"; "30"]
  /\ findall "Sale, now $30" = [","; "30"].
Proof. repeat split. Qed.

Example extract_price_thousands :
  extract_price "$1,299.50" = Some (Prim2SF 1299.5%float).
Proof. vm_compute. reflexivity. Qed.

Example extract_price_commas_only : extract_price ",,," = None.
Proof. reflexivity. Qed.

(** A page with [<h1>Widget</h1>] and a [.price] of ["$19.99"]. *)
Example scrape_widget :
  widget_row "2024-05-01 12:00:00"
  = {| title := "Widget"; url := "https://x.com/widget";
       price := Some (Prim2SF 19.99%float); price_text := Some "$19.99";
       timestamp := "2024-05-01 12:00:00"; status := "success" |}.
Proof. vm_compute. reflexivity. Qed.

Example scrape_timeout :
  timeout_row
  = {| title := "https://x.com/cool-gadget"; url := "https://x.com/cool-gadget";
       price := None; price_text := None;
       timestamp := "2024-05-01 12:00:00";
       status := "error: Read timed out." |}.
Proof. reflexivity. Qed.

(** The price of the second day written again: the later row stays. *)
Example save_same_key_twice :
  drop_duplicates (two_days ++ [sale_row "2024-05-02 12:00:00"])
  = [widget_row "2024-05-01 12:00:00"; sale_row "2024-05-02 12:00:00"].
Proof. reflexivity. Qed.

(** ** More on [extract_price] *)

Section FirstNumber.

Import Text.

Lemma optional_dot_other (s : string) :
  starts_outside (fun c => Ascii.eqb c ".") s ->
  optional_dot s = (EmptyString, s).
Proof.
  intros [-> | (c & r & -> & Hc)]; [reflexivity|].
  destruct (optional_dot_cases (String c r)) as [(r' & E & _) | E]; [|exact E].
  injection E as -> _. discriminate Hc.
Qed.

(** The match at the start of a run of [[\d,]], a point or none, and
    digits. *)
Lemma match_here_number (a f tail : string) (point : bool) :
  forallb_str is_digit_or_comma a = true ->
  a <> EmptyString ->
  forallb_str is_digit f = true ->
  (point = false -> f = EmptyString) ->
  starts_outside
    (if point then is_digit
     else fun c => is_digit_or_comma c || Ascii.eqb c ".") tail ->
  match_here (a ++ (if point then String "." (f ++ tail) else tail))
  = Some ((a ++ (if point then String "." f else EmptyString))%string, tail).
Proof.
  intros Ha Hne Hf Hpoint Htail. unfold match_here.
  destruct point.
  - rewrite (span_stops is_digit_or_comma a (String "." (f ++ tail)) Ha)
      by (right; exists "."%char; exists (f ++ tail)%string; now split).
    destruct a as [|c a']; [now elim Hne|].
    change (optional_dot (String "." (f ++ tail))) with (".", (f ++ tail)%string).
    cbv iota beta.
    rewrite (span_stops is_digit f tail Hf Htail). reflexivity.
  - assert (H1 : starts_outside is_digit_or_comma tail).
    { destruct Htail as [-> | (c & r & -> & Hc)]; [now left|].
      right. exists c. exists r. split; [reflexivity|].
      now apply orb_false_elim in Hc. }
    assert (H2 : starts_outside (fun c => Ascii.eqb c ".") tail).
    { destruct Htail as [-> | (c & r & -> & Hc)]; [now left|].
      right. exists c. exists r. split; [reflexivity|].
      now apply orb_false_elim in Hc. }
    assert (H3 : starts_outside is_digit tail).
    { destruct H1 as [-> | (c & r & -> & Hc)]; [now left|].
      right. exists c. exists r. split; [reflexivity|].
      unfold is_digit_or_comma in Hc. now apply orb_false_elim in Hc. }
    rewrite (span_stops is_digit_or_comma a tail Ha H1).
    destruct a as [|c a']; [now elim Hne|].
    rewrite (optional_dot_other tail H2).
    cbv iota beta.
    change tail with (EmptyString ++ tail)%string at 1.
    rewrite (span_stops is_digit EmptyString tail eq_refl H3). reflexivity.
Qed.

Lemma remove_commas_only (a : string) :
  forallb_str is_comma a = true -> remove_commas a = EmptyString.
Proof.
  induction a as [|c r IH]; simpl; [reflexivity|].
  intros H. apply andb_prop in H as [Hc Hr]. now rewrite Hc, IH.
Qed.

Lemma commas_in_class (a : string) :
  forallb_str is_comma a = true -> forallb_str is_digit_or_comma a = true.
Proof.
  induction a as [|c r IH]; simpl; [reflexivity|].
  intros H. apply andb_prop in H as [Hc Hr].
  unfold is_digit_or_comma at 1. now rewrite Hc, orb_true_r, IH.
Qed.

End FirstNumber.

(** Every text in which a digit or a comma stands has a first number. *)
Lemma text_splits (text : string) :
  Text.forallb_str (fun c => negb (Text.is_digit_or_comma c)) text = true
  \/ exists pre a f tail point, splits_at_first_number text pre a f tail point.
Proof.
  pose proof (span_append (fun c => negb (Text.is_digit_or_comma c)) text) as Ht.
  pose proof (span_forallb (fun c => negb (Text.is_digit_or_comma c)) text) as Hpre.
  pose proof (span_rest (fun c => negb (Text.is_digit_or_comma c)) text) as Hrest.
  destruct (Text.span (fun c => negb (Text.is_digit_or_comma c)) text)
    as [pre rest]; simpl in *.
  destruct Hrest as [-> | (c & r' & -> & Hc)].
  - left. rewrite <- Ht.
    clear Ht. induction pre as [|x pre IH]; simpl in *; [reflexivity|].
    apply andb_prop in Hpre as [Hx Hp]. now rewrite Hx, IH.
  - right. apply negb_false_iff in Hc.
    pose proof (span_append Text.is_digit_or_comma (String c r')) as Ha.
    pose proof (span_forallb Text.is_digit_or_comma (String c r')) as Hrun.
    pose proof (span_rest Text.is_digit_or_comma (String c r')) as Hr1.
    assert (Hne : fst (Text.span Text.is_digit_or_comma (String c r'))
                  <> EmptyString).
    { simpl. rewrite Hc.
      now destruct (Text.span Text.is_digit_or_comma r'). }
    destruct (Text.span Text.is_digit_or_comma (String c r')) as [a r1];
      simpl in Ha, Hrun, Hr1, Hne.
    destruct Hr1 as [-> | (c1 & r1' & -> & Hc1)].
    + exists pre, a, EmptyString, EmptyString, false.
      unfold splits_at_first_number. rewrite Ha, Ht.
      repeat (split; [first [reflexivity | assumption | now intros _]|]).
      now left.
    + destruct (Ascii.eqb c1 ".") eqn:Edot.
      * apply Ascii.eqb_eq in Edot. subst c1.
        pose proof (span_append Text.is_digit r1') as Hf.
        pose proof (span_forallb Text.is_digit r1') as Hdig.
        pose proof (span_rest Text.is_digit r1') as Htail.
        destruct (Text.span Text.is_digit r1') as [f tail]; simpl in *.
        exists pre, a, f, tail, true.
        unfold splits_at_first_number. rewrite Hf, Ha, Ht.
        repeat (split; [first [reflexivity | assumption | discriminate]|]).
        exact Htail.
      * exists pre, a, EmptyString, (String c1 r1'), false.
        unfold splits_at_first_number. rewrite Ha, Ht.
        repeat (split; [first [reflexivity | assumption | now intros _]|]).
        right. exists c1. exists r1'. split; [reflexivity|].
        now rewrite Hc1, Edot.
Qed.

(** C5: only the first numeric run of the text is parsed, its commas
    removed.  A text splits at its first number into characters that are
    neither digits nor commas, a run of digits and commas, a point with
    digits or none, and a tail; the price is then the float nearest to the
    decimal that the digits spell, the commas left out, or [None] when the
    run holds no digit, and it is the same for every tail: no later number
    is looked at.  Every text in which a digit or a comma stands splits so.
    ["$1,234.56 extra"] gives 1234.56 and ["12.34.56"] gives 12.34. *)
Theorem extract_price_first_run :
  (forall text pre a f tail point,
     splits_at_first_number text pre a f tail point ->
     extract_price text
     = PyFloat.float (Text.remove_commas
                        (a ++ (if point then String "." f else EmptyString)))
     /\ extract_price text
        = (if (String.length (Text.remove_commas a) + String.length f =? 0)%nat
           then None
           else Some (PyFloat.of_decimal
                        (PyFloat.digits_value 0 (Text.remove_commas a ++ f))
                        (String.length f)))
     /\ (forall text' tail',
           splits_at_first_number text' pre a f tail' point ->
           extract_price text' = extract_price text))
  /\ (forall text,
        Text.forallb_str (fun c => negb (Text.is_digit_or_comma c)) text = true
        \/ exists pre a f tail point,
             splits_at_first_number text pre a f tail point)
  /\ extract_price "$1,234.56 extra" = Some (Prim2SF 1234.56%float)
  /\ extract_price "12.34.56" = Some (Prim2SF 12.34%float).
Proof.
  assert (Hfirst : forall text pre a f tail point,
            splits_at_first_number text pre a f tail point ->
            extract_price text
            = PyFloat.float (Text.remove_commas
                 (a ++ (if point then String "." f else EmptyString)))).
  { intros text pre a f tail point (-> & Hpre & Ha & Hne & Hf & Hpoint & Htail).
    apply (extract_price_first_match pre _ _ tail Hpre).
    now apply match_here_number. }
  assert (Hvalue : forall a f point,
            Text.forallb_str Text.is_digit_or_comma a = true ->
            Text.forallb_str Text.is_digit f = true ->
            (point = false -> f = EmptyString) ->
            PyFloat.float (Text.remove_commas
               (a ++ (if point then String "." f else EmptyString)))
            = (if (String.length (Text.remove_commas a) + String.length f =? 0)%nat
               then None
               else Some (PyFloat.of_decimal
                            (PyFloat.digits_value 0 (Text.remove_commas a ++ f))
                            (String.length f)))).
  { intros a f point Ha Hf Hpoint. rewrite remove_commas_append.
    assert (E : Text.remove_commas (if point then String "." f else EmptyString)
                = if point then String "." f else f).
    { destruct point.
      - simpl. now rewrite (remove_commas_digits f Hf).
      - now rewrite (Hpoint eq_refl). }
    rewrite E.
    apply (float_decimal (Text.remove_commas a) f point);
      auto using remove_commas_run. }
  split; [|split; [exact text_splits|split; vm_compute; reflexivity]].
  intros text pre a f tail point Hs.
  split; [exact (Hfirst _ _ _ _ _ _ Hs)|]. split.
  - rewrite (Hfirst _ _ _ _ _ _ Hs).
    destruct Hs as (_ & _ & Ha & _ & Hf & Hpoint & _). now apply Hvalue.
  - intros text' tail' Hs'.
    now rewrite (Hfirst _ _ _ _ _ _ Hs), (Hfirst _ _ _ _ _ _ Hs').
Qed.

Lemma extract_price_first_run_witness :
  splits_at_first_number "12.34.56" EmptyString "12" "34" ".56" true
  /\ extract_price "12.34.56" = Some (PyFloat.of_decimal 1234 2)
  /\ extract_price "12.34 or 56" = extract_price "12.34.56".
Proof.
  assert (S1 : splits_at_first_number "12.34.56" EmptyString "12" "34" ".56" true).
  { unfold splits_at_first_number.
    repeat (split; [first [reflexivity | discriminate]|]).
    right. exists "."%char. exists "56". split; reflexivity. }
  assert (S2 : splits_at_first_number "12.34 or 56" EmptyString "12" "34"
                 " or 56" true).
  { unfold splits_at_first_number.
    repeat (split; [first [reflexivity | discriminate]|]).
    right. exists " "%char. exists "or 56". split; reflexivity. }
  destruct (proj1 extract_price_first_run _ _ _ _ _ _ S1) as (_ & Hv & Hsame).
  split; [exact S1|]. split; [exact Hv|]. exact (Hsame _ _ S2).
Defined.

(** X1: the first number of a text decides the price: after characters that
    are neither digits nor commas, a run of digits and commas, a point or
    none, and digits give the float nearest to the decimal the digits
    spell, the commas left out wherever they stand; there is no price when
    the run holds no digit at all. *)
Theorem extract_price_reads_first_number (pre a f tail : string) (point : bool) :
  Text.forallb_str (fun c => negb (Text.is_digit_or_comma c)) pre = true ->
  Text.forallb_str Text.is_digit_or_comma a = true ->
  a <> EmptyString ->
  Text.forallb_str Text.is_digit f = true ->
  (point = false -> f = EmptyString) ->
  starts_outside
    (if point then Text.is_digit
     else fun c => Text.is_digit_or_comma c || Ascii.eqb c ".") tail ->
  extract_price (pre ++ a ++ (if point then String "." (f ++ tail) else tail))
  = if (String.length (Text.remove_commas a) + String.length f =? 0)%nat
    then None
    else Some (PyFloat.of_decimal
                 (PyFloat.digits_value 0 (Text.remove_commas a ++ f))
                 (String.length f)).
Proof.
  intros Hpre Ha Hne Hf Hpoint Htail.
  rewrite (extract_price_first_match pre _ _ tail Hpre
             (match_here_number a f tail point Ha Hne Hf Hpoint Htail)).
  rewrite remove_commas_append.
  assert (E : Text.remove_commas (if point then String "." f else EmptyString)
              = if point then String "." f else f).
  { destruct point.
    - simpl. now rewrite (remove_commas_digits f Hf).
    - now rewrite (Hpoint eq_refl). }
  rewrite E.
  apply (float_decimal (Text.remove_commas a) f point);
    auto using remove_commas_run.
Qed.

Lemma extract_price_reads_first_number_witness :
  extract_price "Price: $1,299.50 each" = Some (PyFloat.of_decimal 129950 2).
Proof.
  apply (extract_price_reads_first_number "Price: $" "1,299" "50" " each" true).
  - reflexivity.
  - reflexivity.
  - discriminate.
  - reflexivity.
  - discriminate.
  - right. exists " "%char. exists "each". split; reflexivity.
Defined.

(** X2: a comma that stands before the first digit and is not attached to it
    takes the place of the price: the first match is then a run of commas,
    [float] refuses it and the result is [None], whatever numbers the
    text holds further on. *)
Theorem extract_price_stray_comma (pre a tail : string) :
  Text.forallb_str (fun c => negb (Text.is_digit_or_comma c)) pre = true ->
  Text.forallb_str Text.is_comma a = true ->
  a <> EmptyString ->
  starts_outside (fun c => Text.is_digit_or_comma c || Ascii.eqb c ".") tail ->
  extract_price (pre ++ a ++ tail) = None.
Proof.
  intros Hpre Ha Hne Htail.
  rewrite (extract_price_first_match pre _ _ tail Hpre
             (match_here_number a EmptyString tail false
                (commas_in_class a Ha) Hne eq_refl (fun _ => eq_refl) Htail)).
  rewrite remove_commas_append, (remove_commas_only a Ha). reflexivity.
Qed.

Lemma extract_price_stray_comma_witness :
  extract_price "Sale, now $30" = None.
Proof.
  apply (extract_price_stray_comma "Sale" "," " now $30").
  - reflexivity.
  - reflexivity.
  - discriminate.
  - right. exists " "%char. exists "now $30". split; reflexivity.
Defined.

(** ** The sign of a price *)

Section Sign.

Lemma shr_1_nonneg (mrs : shr_record) :
  (0 <= shr_m mrs)%Z -> (0 <= shr_m (shr_1 mrs))%Z.
Proof.
  destruct mrs as [m r s]. simpl.
  destruct m as [|p|p]; simpl; [lia | | lia].
  destruct p; simpl; lia.
Qed.

Lemma iter_pos_shr_1_nonneg (n : positive) (mrs : shr_record) :
  (0 <= shr_m mrs)%Z -> (0 <= shr_m (iter_pos shr_1 n mrs))%Z.
Proof.
  revert mrs. induction n as [n IH | n IH |]; intros mrs H; simpl.
  - apply IH, IH. now apply shr_1_nonneg.
  - now apply IH, IH.
  - now apply shr_1_nonneg.
Qed.

Lemma shr_fexp_nonneg (m e : Z) (l : location) :
  (0 <= m)%Z -> (0 <= shr_m (fst (shr_fexp PyFloat.prec PyFloat.emax m e l)))%Z.
Proof.
  intros Hm. unfold shr_fexp, shr.
  assert (H0 : (0 <= shr_m (shr_record_of_loc m l))%Z).
  { destruct l as [|[]]; simpl; exact Hm. }
  destruct (fexp PyFloat.prec PyFloat.emax (Zdigits2 m + e) - e)%Z; simpl; auto.
  now apply iter_pos_shr_1_nonneg.
Qed.

Lemma round_nearest_even_nonneg (m : Z) (l : location) :
  (0 <= m)%Z -> (0 <= round_nearest_even m l)%Z.
Proof.
  intros Hm. destruct l as [|[]]; simpl; try lia.
  destruct (Z.even m); lia.
Qed.

Lemma binary_round_aux_unsigned (m e : Z) (l : location) :
  (0 <= m)%Z -> unsigned_float (binary_round_aux PyFloat.prec PyFloat.emax false m e l).
Proof.
  intros Hm. unfold binary_round_aux.
  pose proof (shr_fexp_nonneg m e l Hm) as H1.
  destruct (shr_fexp PyFloat.prec PyFloat.emax m e l) as [mrs' e']; simpl in H1.
  pose proof (shr_fexp_nonneg _ e' loc_Exact
                (round_nearest_even_nonneg _ (loc_of_shr_record mrs') H1)) as H2.
  destruct (shr_fexp PyFloat.prec PyFloat.emax
              (round_nearest_even (shr_m mrs') (loc_of_shr_record mrs'))
              e' loc_Exact) as [mrs'' e'']; simpl in H2.
  unfold unsigned_float.
  destruct (shr_m mrs'') as [|p|p]; [auto | | lia].
  destruct (e'' <=? PyFloat.emax - PyFloat.prec)%Z; eauto.
Qed.

Lemma of_decimal_unsigned (m : Z) (k : nat) :
  unsigned_float (PyFloat.of_decimal m k).
Proof.
  unfold PyFloat.of_decimal.
  destruct m as [|p|p]; try (left; reflexivity).
  unfold SFdiv.
  destruct (SFdiv_core_binary PyFloat.prec PyFloat.emax (Z.pos p) 0
              (Z.pos (Z.to_pos (10 ^ Z.of_nat k))) 0) as [[mz ez] lz] eqn:E.
  apply binary_round_aux_unsigned.
  unfold SFdiv_core_binary in E.
  match type of E with
  | (let '(q, r) := Z.div_eucl ?n ?d in _) = _ =>
      assert (Hn : (0 <= n)%Z);
      [| pose proof (Z.div_pos n d Hn ltac:(lia)) as Hq;
         unfold Z.div in Hq; destruct (Z.div_eucl n d) as [q r];
         injection E as <- _ _; exact Hq]
  end.
  match goal with
  | |- (0 <= match ?s with _ => _ end)%Z => destruct s
  end; try lia.
  rewrite Z.shiftl_mul_pow2 by lia. lia.
Qed.

End Sign.

(** X3: a price is never negative and never a NaN: it is zero, a finite float
    or the infinity, with the sign bit clear; a minus sign in the text is
    not part of the match. *)
Theorem extract_price_unsigned (text : string) (v : spec_float) :
  extract_price text = Some v -> unsigned_float v.
Proof.
  intros H.
  destruct (extract_price_decimal text v H) as (ip & f & _ & _ & ->).
  apply of_decimal_unsigned.
Qed.

Lemma extract_price_unsigned_witness :
  extract_price "-5.00" = Some (Prim2SF 5%float)
  /\ unsigned_float (Prim2SF 5%float).
Proof.
  split; [vm_compute; reflexivity|].
  apply (extract_price_unsigned "-5.00"). vm_compute. reflexivity.
Defined.

(** ** The fields of a scraped observation *)

(** Once a selector has matched, [price_text] holds a text for good. *)
Lemma price_loop_text_kept (soup : Soup) (selectors : list string)
    (p : option spec_float) (t : string) :
  snd (price_loop soup selectors (p, Some t)) <> None.
Proof.
  revert p t. induction selectors as [|a l IH]; intros p t; simpl;
    [discriminate|].
  destruct (soup a) as [ta|]; [|apply IH].
  destruct (truthy_price (extract_price ta)); simpl; [discriminate | apply IH].
Qed.

Lemma price_loop_invariant (soup : Soup) (selectors : list string)
    (st : option spec_float * option string) :
  let r := price_loop soup selectors st in
  (fst st = match snd st with Some t => extract_price t | None => None end ->
   fst r = match snd r with Some t => extract_price t | None => None end)
  /\ (forall t, snd r = Some t ->
        snd st = Some t \/ exists s, In s selectors /\ soup s = Some t)
  /\ (snd st = None ->
        (snd r = None <-> forall s, In s selectors -> soup s = None)).
Proof.
  revert st. induction selectors as [|a l IH]; intros st; simpl.
  - split; [auto|]. split; [auto|]. intros E. rewrite E. tauto.
  - destruct (soup a) as [ta|] eqn:Ea.
    + destruct (truthy_price (extract_price ta)) eqn:Et; simpl.
      * split; [reflexivity|]. split.
        -- intros t E. injection E as <-. right. exists a. auto.
        -- intros _. split; [discriminate|].
           intros H. rewrite (H a (or_introl eq_refl)) in Ea. discriminate Ea.
      * destruct (IH (extract_price ta, Some ta)) as (I1 & I2 & _).
        simpl in I1, I2. split; [intros _; now apply I1|]. split.
        -- intros t E. right. destruct (I2 t E) as [E' | (s & Hs & Hm)].
           ++ injection E' as <-. exists a. auto.
           ++ exists s. auto.
        -- intros _. split.
           ++ intros E. now apply price_loop_text_kept in E.
           ++ intros H. rewrite (H a (or_introl eq_refl)) in Ea. discriminate Ea.
    + destruct (IH st) as (I1 & I2 & I3). split; [exact I1|]. split.
      * intros t E. destruct (I2 t E) as [E' | (s & Hs & Hm)]; [now left|].
        right. exists s. auto.
      * intros E. rewrite (I3 E). split.
        -- intros H s [<- | Hin]; auto.
        -- intros H s Hin. apply H. now right.
Qed.

(** X4: On a fetched page the price is what [extract_price] makes of the
    [price_text] recorded beside it; that text is the text of an element
    one of the selectors matched, and it is missing exactly when no
    selector matched anything. *)
Theorem price_comes_from_price_text (soup : Soup) (now u : string)
    (sel : option string) :
  let o := scrape_generic_product (Fetched soup) now u sel in
  price o = match price_text o with
            | Some t => extract_price t
            | None => None
            end
  /\ (forall t, price_text o = Some t ->
        exists s, In s (price_selectors sel) /\ soup s = Some t)
  /\ (price_text o = None <->
        forall s, In s (price_selectors sel) -> soup s = None).
Proof.
  cbv zeta. unfold scrape_generic_product, resolve_price.
  pose proof (price_loop_invariant soup (price_selectors sel) (None, None))
    as (I1 & I2 & I3). cbv zeta in I1, I2, I3. simpl in I1, I2, I3.
  destruct (price_loop soup (price_selectors sel) (None, None)) as [p pt].
  simpl in *. split; [now apply I1|]. split.
  - intros t E. destruct (I2 t E) as [E' | H]; [discriminate E' | exact H].
  - now apply I3.
Qed.

Lemma price_comes_from_price_text_witness :
  exists s, In s (price_selectors None) /\ third_builtin s = Some "USD 42.50".
Proof.
  apply (proj1 (proj2 (price_comes_from_price_text third_builtin
                         "2024-05-01 12:00:00" "https://x.com/w" None))).
  reflexivity.
Defined.

Lemma title_loop_first (soup : Soup) (l1 : list string) (s : string)
    (l2 : list string) (t : string) :
  (forall s', In s' l1 -> soup s' = None) ->
  soup s = Some t ->
  title_loop soup (l1 ++ s :: l2) = Some t.
Proof.
  intros Hl1 Hs. induction l1 as [|a l1 IH]; simpl.
  - now rewrite Hs.
  - rewrite (Hl1 a (or_introl eq_refl)). apply IH.
    intros s' Hin. apply Hl1. now right.
Qed.

(** X5: the first title selector that matches decides the title alone: its
    text is the title when it is not empty; when it is empty the title is
    taken from the URL, and the title selectors after it are not looked
    at. *)
Theorem title_first_match_decides (soup : Soup) (now u : string)
    (sel : option string) (l1 : list string) (s : string) (l2 : list string)
    (t : string) :
  title_selectors = l1 ++ s :: l2 ->
  (forall s', In s' l1 -> soup s' = None) ->
  soup s = Some t ->
  title (scrape_generic_product (Fetched soup) now u sel)
  = match t with
    | EmptyString => url_fallback u
    | _ => t
    end.
Proof.
  intros Hsel Hl1 Hs. unfold scrape_generic_product.
  destruct (resolve_price soup (price_selectors sel)); simpl.
  unfold resolve_title. rewrite Hsel, (title_loop_first soup l1 s l2 t Hl1 Hs).
  now destruct t.
Qed.

Lemma title_first_match_decides_witness :
  empty_heading ".product-title" = Some "Widget"
  /\ title (scrape_generic_product (Fetched empty_heading)
              "2024-05-01 12:00:00" "https://x.com/widget-9" None)
     = "widget-9".
Proof.
  split; [reflexivity|].
  apply (title_first_match_decides empty_heading "2024-05-01 12:00:00"
           "https://x.com/widget-9" None [] "h1" (tl title_selectors)
           EmptyString).
  - reflexivity.
  - intros s' [].
  - reflexivity.
Defined.

(** ** Loading *)

Lemma convert_timestamps_none `{Pandas} (df : DataFrame string) :
  convert_timestamps df = None
  <-> exists r, In r df /\ to_datetime (timestamp r) = None.
Proof.
  induction df as [|a rest IH]; simpl.
  - split; [discriminate | intros (r & [] & _)].
  - destruct (to_datetime (timestamp a)) as [t|] eqn:Ea.
    + destruct (convert_timestamps rest) as [rest'|].
      * split; [discriminate|].
        intros (r & [<- | Hin] & Hr); [congruence|].
        assert (E : Some rest' = None) by (apply IH; eauto).
        discriminate E.
      * split; [|reflexivity]. intros _.
        destruct (proj1 IH eq_refl) as (r & Hin & Hr). eauto.
    + split; [|reflexivity]. intros _. exists a. auto.
Qed.

(** X6: [load_data] converts the timestamps before it filters on the price:
    over a file that can be read it raises exactly when [to_datetime]
    refuses the timestamp of some row, a row without price included,
    though such a row would not be kept. *)
Theorem load_data_needs_every_timestamp `{Pandas} (f : csv)
    (df : DataFrame string) :
  read_csv f = Some df ->
  (load_data (Some f) = None
   <-> exists r, In r df /\ to_datetime (timestamp r) = None).
Proof.
  intros Hread. unfold load_data. rewrite Hread.
  rewrite <- convert_timestamps_none.
  destruct (convert_timestamps df); split; congruence.
Qed.

Lemma load_data_needs_every_timestamp_witness :
  price undated_row = None
  /\ @load_data table_pandas
       (Some [widget_row "2024-05-01 12:00:00"; undated_row]) = None.
Proof.
  split; [reflexivity|].
  apply (proj2 (@load_data_needs_every_timestamp table_pandas
                  [widget_row "2024-05-01 12:00:00"; undated_row]
                  [widget_row "2024-05-01 12:00:00"; undated_row] eq_refl)).
  exists undated_row. split; [right; left; reflexivity | reflexivity].
Defined.




Example strptime_seconds_dates :
  strptime_seconds "2024-02-29 23:59:59" = Some (mkDateTime 2024 2 29 23 59 59)
  /\ strptime_seconds "2023-02-29 12:00:00" = None
  /\ strptime_seconds "2024-04-31 12:00:00" = None
  /\ strptime_seconds "2024-05-01" = None
  /\ strptime_seconds "2024-05-01 24:00:00" = None.
Proof. repeat split. Qed.

(** ** Merging *)

Lemma drop_duplicates_app (existing new : DataFrame string) :
  drop_duplicates (existing ++ new)
  = filter (fun r => negb (key_in new r)) (drop_duplicates existing)
    ++ drop_duplicates new.
Proof.
  induction existing as [|a rest IH]; simpl; [reflexivity|].
  rewrite existsb_app.
  destruct (existsb (has_key (key a)) rest); simpl; [exact IH|].
  unfold key_in at 1.
  destruct (existsb (has_key (key a)) new); simpl; now rewrite IH.
Qed.

Lemma key_in_keys (df : DataFrame string) (r : Observation) :
  key_in df r = true <-> In (key r) (map key df).
Proof. apply has_key_exists. Qed.

Lemma filter_all {A : Type} (p : A -> bool) (l : list A) :
  (forall x, In x l -> p x = true) -> filter p l = l.
Proof.
  induction l as [|a l IH]; simpl; intros H; [reflexivity|].
  rewrite (H a (or_introl eq_refl)), IH; auto.
Qed.

Lemma filter_none {A : Type} (p : A -> bool) (l : list A) :
  (forall x, In x l -> p x = false) -> filter p l = [].
Proof.
  induction l as [|a l IH]; simpl; intros H; [reflexivity|].
  rewrite (H a (or_introl eq_refl)), IH; auto.
Qed.

(** Rows whose keys are all written again are all replaced. *)
Lemma drop_duplicates_overwritten (existing new : DataFrame string) :
  (forall k, In k (map key existing) -> In k (map key new)) ->
  drop_duplicates (existing ++ new) = drop_duplicates new.
Proof.
  intros Hsub. rewrite drop_duplicates_app, filter_none; [reflexivity|].
  intros r Hr. apply negb_false_iff, key_in_keys, Hsub.
  apply drop_duplicates_incl in Hr. now apply in_map.
Qed.

(** X7: what [save_to_csv] leaves: the rows of the file whose key is not
    written again, in the order they had, then the new rows; a row of the
    file is not touched unless a new row has its key. *)
Theorem save_to_csv_appends_after_old `{Pandas} (f : csv)
    (existing new : DataFrame string) :
  read_csv f = Some existing ->
  unique_keys existing ->
  let merged := filter (fun r => negb (key_in new r)) existing
                ++ drop_duplicates new in
  save_to_csv (Some f) new = Some (merged, Some (to_csv merged)).
Proof.
  intros Hread Hu. cbv zeta. unfold save_to_csv. rewrite Hread.
  now rewrite drop_duplicates_app, (drop_duplicates_fixed existing Hu).
Qed.

Lemma save_to_csv_appends_after_old_witness :
  @save_to_csv table_pandas (Some two_days) [timeout_row]
  = Some (two_days ++ [timeout_row], Some (two_days ++ [timeout_row])).
Proof.
  apply (@save_to_csv_appends_after_old table_pandas two_days two_days
           [timeout_row] eq_refl).
  unfold unique_keys. simpl. constructor.
  - simpl. intros [E | []]. discriminate E.
  - constructor; [simpl; tauto | constructor].
Defined.

(** X8: saving the same observations once more changes nothing: when the file
    written reads back as the frame written, the second call returns the
    same frame and leaves the same file. *)
Theorem save_to_csv_twice `{Pandas} (file file' : File)
    (new df : DataFrame string) :
  save_to_csv file new = Some (df, file') ->
  read_csv (to_csv df) = Some df ->
  save_to_csv file' new = Some (df, file').
Proof.
  intros Hsave Hread.
  pose proof (save_to_csv_writes _ _ _ _ Hsave) as ->.
  assert (Hdf : exists existing, df = drop_duplicates (existing ++ new)).
  { unfold save_to_csv in Hsave. destruct file as [f|].
    - destruct (read_csv f) as [ex|]; [|discriminate].
      injection Hsave as <-. now exists ex.
    - injection Hsave as <-. now exists []. }
  destruct Hdf as (existing & Hdf).
  assert (E : drop_duplicates (df ++ new) = df).
  { rewrite drop_duplicates_app.
    rewrite (drop_duplicates_fixed df) by (subst df; apply drop_duplicates_unique).
    rewrite Hdf at 1. rewrite drop_duplicates_app, filter_app.
    rewrite (filter_none _ (drop_duplicates new)).
    - rewrite app_nil_r, filter_all.
      + now rewrite Hdf, drop_duplicates_app.
      + intros r Hr. now apply filter_In in Hr.
    - intros r Hr. apply negb_false_iff, key_in_keys.
      apply drop_duplicates_incl in Hr. now apply in_map. }
  unfold save_to_csv. now rewrite Hread, E.
Qed.

Lemma save_to_csv_twice_witness :
  @save_to_csv table_pandas
     (Some [widget_row "2024-05-01 12:00:00"; sale_row "2024-05-02 12:00:00"])
     [sale_row "2024-05-02 12:00:00"]
  = Some ([widget_row "2024-05-01 12:00:00"; sale_row "2024-05-02 12:00:00"],
          Some [widget_row "2024-05-01 12:00:00"; sale_row "2024-05-02 12:00:00"]).
Proof.
  apply (@save_to_csv_twice table_pandas (Some two_days)
           (Some [widget_row "2024-05-01 12:00:00"; sale_row "2024-05-02 12:00:00"])
           [sale_row "2024-05-02 12:00:00"]
           [widget_row "2024-05-01 12:00:00"; sale_row "2024-05-02 12:00:00"]).
  - reflexivity.
  - reflexivity.
Defined.

Lemma unique_keys_length (df1 df2 : DataFrame string) :
  unique_keys df1 ->
  (forall k, In k (map key df1) -> In k (map key df2)) ->
  List.length df1 <= List.length df2.
Proof.
  intros Hu Hsub.
  rewrite <- (length_map key df1), <- (length_map key df2).
  now apply NoDup_incl_length.
Qed.

(** X9: the data file never loses a key and never gets shorter: over a file
    that keeps the invariant, the frame written has as many rows as the
    file at least, and as many as the file and the new observations
    together at most. *)
Theorem save_to_csv_never_shrinks `{Pandas} (f : csv)
    (existing new merged : DataFrame string) (file' : File) :
  read_csv f = Some existing ->
  unique_keys existing ->
  save_to_csv (Some f) new = Some (merged, file') ->
  List.length existing <= List.length merged
  /\ List.length merged <= List.length existing + List.length new.
Proof.
  intros Hread Hu Hsave. unfold save_to_csv in Hsave.
  rewrite Hread in Hsave. injection Hsave as <- _. split.
  - apply unique_keys_length; [exact Hu|].
    intros k Hk. apply drop_duplicates_keys. rewrite map_app, in_app_iff. auto.
  - pose proof (drop_duplicates_length (existing ++ new)) as Hl.
    now rewrite length_app in Hl.
Qed.

Lemma save_to_csv_never_shrinks_witness :
  2 <= List.length (drop_duplicates (two_days ++ [sale_row "2024-05-02 12:00:00"]))
  /\ List.length (drop_duplicates (two_days ++ [sale_row "2024-05-02 12:00:00"]))
     <= 2 + 1.
Proof.
  apply (@save_to_csv_never_shrinks table_pandas two_days two_days
           [sale_row "2024-05-02 12:00:00"] _
           (Some (drop_duplicates (two_days ++ [sale_row "2024-05-02 12:00:00"])))).
  - reflexivity.
  - unfold unique_keys. simpl. constructor.
    + simpl. intros [E | []]. discriminate E.
    + constructor; [simpl; tauto | constructor].
  - reflexivity.
Defined.

(** ** From the page to the loaded frame *)

Lemma truthy_false_zero (v : spec_float) :
  unsigned_float v -> PyFloat.truthy v = false -> v = PyFloat.zero.
Proof.
  intros [-> | [-> | (m & e & ->)]]; simpl; intros E;
    [reflexivity | discriminate E | discriminate E].
Qed.

Lemma scraped_priced (r : Observation) :
  scraped r ->
  price r <> None ->
  (status r = "success"
   /\ exists v, price r = Some v /\ PyFloat.truthy v = true)
  \/ (status r = "price_not_found" /\ price r = Some PyFloat.zero).
Proof.
  intros (resp & now & u & sel & ->). destruct resp as [detail | soup].
  - simpl. intros H. now elim H.
  - unfold scrape_generic_product, resolve_price.
    pose proof (price_loop_invariant soup (price_selectors sel) (None, None))
      as (I1 & _ & _). cbv zeta in I1. simpl in I1. specialize (I1 eq_refl).
    destruct (price_loop soup (price_selectors sel) (None, None)) as [p pt].
    simpl in *. intros Hp.
    destruct p as [v|]; [|now elim Hp]. simpl.
    destruct (PyFloat.truthy v) eqn:Et.
    + left. eauto.
    + right. split; [reflexivity|]. f_equal.
      apply truthy_false_zero; [|exact Et].
      destruct pt as [t|]; [|discriminate I1].
      symmetry in I1.
      destruct (extract_price_decimal t v I1) as (ip & f & _ & _ & ->).
      apply of_decimal_unsigned.
Qed.

(** X10: of the observations [scrape_generic_product] made, [load_data] keeps
    those with a price: a loaded row is a [success] with a price that is
    not zero, or a [price_not_found] whose price is 0; the record of a
    failed request is never loaded. *)
Theorem load_data_keeps_priced_rows `{Pandas} (f : csv) (df : DataFrame string)
    (loaded : DataFrame Timestamp) :
  read_csv f = Some df ->
  Forall scraped df ->
  load_data (Some f) = Some (true, Some loaded) ->
  forall r', In r' loaded ->
    (status r' = "success"
     /\ exists v, price r' = Some v /\ PyFloat.truthy v = true)
    \/ (status r' = "price_not_found" /\ price r' = Some PyFloat.zero).
Proof.
  intros Hread Hall Hload r' Hin. unfold load_data in Hload.
  rewrite Hread in Hload.
  destruct (convert_timestamps df) as [df'|] eqn:Hconv; [|discriminate].
  injection Hload as <-. apply filter_In in Hin as [Hin Hp].
  destruct (Forall2_In_r _ _ _ (convert_timestamps_rows _ _ Hconv) r' Hin)
    as (r & Hr & (_ & _ & Hprice & _ & Hstatus & _)).
  rewrite Hprice, Hstatus. apply scraped_priced.
  - rewrite Forall_forall in Hall. now apply Hall.
  - unfold price_notna in Hp. rewrite Hprice in Hp.
    destruct (price r); [discriminate | discriminate Hp].
Qed.

Lemma load_data_keeps_priced_rows_witness :
  (status free_sample_loaded = "success"
   /\ exists v, price free_sample_loaded = Some v /\ PyFloat.truthy v = true)
  \/ (status free_sample_loaded = "price_not_found"
      /\ price free_sample_loaded = Some PyFloat.zero).
Proof.
  apply (@load_data_keeps_priced_rows table_pandas
           [widget_row "2024-05-01 12:00:00"; timeout_row; free_sample_row]
           [widget_row "2024-05-01 12:00:00"; timeout_row; free_sample_row]
           [ {| title := "Widget"; url := "https://x.com/widget";
                price := Some (Prim2SF 19.99%float);
                price_text := Some "$19.99";
                timestamp := mkDateTime 2024 5 1 12 0 0;
                status := "success" |};
             free_sample_loaded ]).
  - reflexivity.
  - constructor; [|constructor; [|constructor; [|constructor]]].
    + exists (Fetched widget), "2024-05-01 12:00:00", "https://x.com/widget",
        None. reflexivity.
    + exists (RequestException "Read timed out."), "2024-05-01 12:00:00",
        "https://x.com/cool-gadget", None. reflexivity.
    + exists (Fetched free_sample), "2024-05-01 12:00:00",
        "https://x.com/free-sample", None. reflexivity.
  - vm_compute. reflexivity.
  - right. left. reflexivity.
Defined.

(** ** The demo data *)

Lemma scrape_demo_data_keys (noon : nat -> string)
    (variation : nat -> Product -> spec_float) :
  map key (scrape_demo_data noon variation) = demo_keys noon day_offsets.
Proof.
  unfold scrape_demo_data, demo_keys. generalize day_offsets. intros days.
  induction days as [|d ds IH]; [reflexivity|].
  cbn [flat_map]. rewrite map_app, IH. f_equal.
Qed.

Lemma demo_urls_differ : NoDup (map demo_url products).
Proof.
  vm_compute.
  repeat (constructor; [simpl; intuition discriminate|]). constructor.
Qed.

Lemma NoDup_append {A : Type} (l1 l2 : list A) :
  NoDup l1 -> NoDup l2 -> (forall x, In x l1 -> ~ In x l2) -> NoDup (l1 ++ l2).
Proof.
  intros H1 H2 Hd. induction H1 as [|a l1 Ha H1 IH]; simpl; [exact H2|].
  constructor.
  - rewrite in_app_iff. intros [H | H]; [contradiction|].
    apply (Hd a (or_introl eq_refl) H).
  - apply IH. intros x Hx. apply Hd. now right.
Qed.

Lemma demo_keys_differ (noon : nat -> string) (days : list nat) :
  NoDup (map noon days) -> NoDup (demo_keys noon days).
Proof.
  induction days as [|d ds IH]; intros H; [constructor|].
  change (demo_keys noon (d :: ds))
    with (map (fun p => (demo_url p, noon d)) products ++ demo_keys noon ds).
  cbn [map] in H. inversion H as [|x xs Hnot Hrest]; subst.
  apply NoDup_append.
  - pose proof demo_urls_differ as Hu. revert Hu.
    generalize products. intros ps Hu.
    induction ps as [|p ps IHp]; simpl in *; [constructor|].
    inversion Hu as [|y ys Hy Hys]; subst. constructor; [|now apply IHp].
    rewrite in_map_iff. intros (q & E & Hq).
    apply (f_equal fst) in E. cbn [fst] in E.
    apply Hy. rewrite <- E. now apply in_map.
  - now apply IH.
  - intros k Hk Hk'. apply in_map_iff in Hk as (p & <- & _).
    unfold demo_keys in Hk'. apply in_flat_map in Hk' as (d' & Hd' & Hin).
    apply in_map_iff in Hin as (q & E & _).
    apply (f_equal snd) in E. cbn [snd] in E.
    apply Hnot. rewrite <- E. now apply in_map.
Qed.

(** X11: [scrape_demo_data] returns 150 records, five for each of thirty days,
    each a [success] with a price and no price text; when the thirty
    stamps are different texts, as the stamps of thirty days are, no two
    records have the same URL and timestamp. *)
Theorem scrape_demo_data_records (noon : nat -> string)
    (variation : nat -> Product -> spec_float) :
  let data := scrape_demo_data noon variation in
  List.length data = 150
  /\ (forall r, In r data ->
        status r = "success" /\ price r <> None /\ price_text r = None
        /\ exists p d, In p products /\ In d day_offsets
                       /\ title r = name p /\ url r = demo_url p
                       /\ timestamp r = noon d)
  /\ (NoDup (map noon day_offsets) -> unique_keys data).
Proof.
  cbv zeta. split; [reflexivity|]. split.
  - intros r Hr. unfold scrape_demo_data in Hr.
    apply in_flat_map in Hr as (d & Hd & Hr). unfold demo_day in Hr.
    apply in_map_iff in Hr as (p & <- & Hp). simpl.
    split; [reflexivity|]. split; [discriminate|]. split; [reflexivity|].
    exists p, d. auto.
  - intros H. unfold unique_keys. rewrite scrape_demo_data_keys.
    now apply demo_keys_differ.
Qed.

Lemma may_noon_differ : NoDup (map may_noon day_offsets).
Proof.
  vm_compute.
  repeat (constructor; [simpl; intuition discriminate|]). constructor.
Qed.

Lemma scrape_demo_data_records_witness :
  unique_keys (scrape_demo_data may_noon no_variation).
Proof.
  exact (proj2 (proj2 (scrape_demo_data_records may_noon no_variation))
           may_noon_differ).
Defined.

(** X12: [main] with no data file writes the 150 demo records, all of them and
    in the order they were made, when the thirty stamps differ. *)
Theorem main_writes_demo_data `{Pandas} (noon : nat -> string)
    (variation : nat -> Product -> spec_float) :
  NoDup (map noon day_offsets) ->
  main noon variation None
  = Some (Some (to_csv (scrape_demo_data noon variation))).
Proof.
  intros Hn. unfold main, save_to_csv.
  rewrite drop_duplicates_fixed; [reflexivity|].
  unfold unique_keys. rewrite scrape_demo_data_keys.
  now apply demo_keys_differ.
Qed.

Lemma main_writes_demo_data_witness :
  @main table_pandas may_noon no_variation None
  = Some (Some (scrape_demo_data may_noon no_variation)).
Proof.
  exact (@main_writes_demo_data table_pandas may_noon no_variation
           may_noon_differ).
Defined.

(** X13: [main] run again on the same day, over the file the first run wrote:
    the stamps are the same, so every record of the first run is replaced
    by the record of the second run for the same product and day, and the
    file holds the 150 records of the second run and nothing else. *)
Theorem main_again_replaces_demo_data `{Pandas} (noon : nat -> string)
    (first second : nat -> Product -> spec_float) (f : csv) :
  NoDup (map noon day_offsets) ->
  read_csv f = Some (scrape_demo_data noon first) ->
  main noon second (Some f)
  = Some (Some (to_csv (scrape_demo_data noon second))).
Proof.
  intros Hn Hread. unfold main, save_to_csv. rewrite Hread.
  rewrite drop_duplicates_overwritten.
  - rewrite drop_duplicates_fixed; [reflexivity|].
    unfold unique_keys. rewrite scrape_demo_data_keys.
    now apply demo_keys_differ.
  - intros k. now rewrite !scrape_demo_data_keys.
Qed.

Lemma main_again_replaces_demo_data_witness :
  @main table_pandas may_noon tenth_up
     (Some (scrape_demo_data may_noon no_variation))
  = Some (Some (scrape_demo_data may_noon tenth_up)).
Proof.
  exact (@main_again_replaces_demo_data table_pandas may_noon no_variation
           tenth_up (scrape_demo_data may_noon no_variation)
           may_noon_differ eq_refl).
Defined.

Example may_noon_stamps :
  may_noon 30 = "2024-05-01 12:00:00" /\ may_noon 1 = "2024-05-30 12:00:00".
Proof. split; reflexivity. Qed.

Example demo_prices :
  map price (demo_day "2024-05-30 12:00:00" (tenth_up 1))
  = [ Some (Prim2SF 989.99%float); Some (Prim2SF 32.99%float);
      Some (Prim2SF 98.99%float); Some (Prim2SF 54.99%float);
      Some (Prim2SF 329.99%float) ].
Proof. vm_compute. reflexivity. Qed.

Lemma convert_timestamps_length `{Pandas} (df : DataFrame string)
    (df' : DataFrame Timestamp) :
  convert_timestamps df = Some df' -> List.length df' = List.length df.
Proof.
  intros Hc. apply convert_timestamps_rows in Hc.
  induction Hc; simpl; congruence.
Qed.

(** X14: from [main] to the analyzer: when the file [main] wrote reads back as
    written and [to_datetime] takes the thirty stamps, [load_data] returns
    [True] with 150 rows: no demo record is filtered out. *)
Theorem load_data_after_main `{Pandas} (noon : nat -> string)
    (variation : nat -> Product -> spec_float) (file' : File) :
  NoDup (map noon day_offsets) ->
  main noon variation None = Some file' ->
  read_csv (to_csv (scrape_demo_data noon variation))
    = Some (scrape_demo_data noon variation) ->
  (forall d, In d day_offsets -> to_datetime (noon d) <> None) ->
  exists loaded,
    load_data file' = Some (true, Some loaded)
    /\ List.length loaded = 150
    /\ Forall2 converted (scrape_demo_data noon variation) loaded.
Proof.
  intros Hn Hmain Hread Hdate.
  unfold main, save_to_csv in Hmain.
  rewrite drop_duplicates_fixed in Hmain
    by (unfold unique_keys; rewrite scrape_demo_data_keys;
        now apply demo_keys_differ).
  injection Hmain as <-.
  unfold load_data. rewrite Hread.
  destruct (convert_timestamps (scrape_demo_data noon variation))
    as [df'|] eqn:Hconv.
  - pose proof (convert_timestamps_rows _ _ Hconv) as Hrows.
    assert (Hall : forall r', In r' df' -> price_notna r' = true).
    { intros r' Hin.
      destruct (Forall2_In_r _ _ _ Hrows r' Hin) as (r & Hr & (_ & _ & Hp & _)).
      unfold scrape_demo_data in Hr. apply in_flat_map in Hr as (d & _ & Hr).
      unfold demo_day in Hr. apply in_map_iff in Hr as (p & <- & _).
      unfold price_notna. now rewrite Hp. }
    exists df'. rewrite (filter_all _ _ Hall).
    split; [reflexivity|]. split; [|exact Hrows].
    now rewrite (convert_timestamps_length _ _ Hconv).
  - exfalso. apply convert_timestamps_none in Hconv as (r & Hr & Hnone).
    unfold scrape_demo_data in Hr. apply in_flat_map in Hr as (d & Hd & Hr).
    unfold demo_day in Hr. apply in_map_iff in Hr as (p & <- & _).
    simpl in Hnone. now apply (Hdate d Hd).
Qed.

Lemma load_data_after_main_witness :
  exists loaded,
    @load_data table_pandas (Some (scrape_demo_data may_noon no_variation))
      = Some (true, Some loaded)
    /\ List.length loaded = 150
    /\ Forall2 (@converted table_pandas)
         (scrape_demo_data may_noon no_variation) loaded.
Proof.
  apply (@load_data_after_main table_pandas may_noon no_variation
           (Some (scrape_demo_data may_noon no_variation))).
  - exact may_noon_differ.
  - vm_compute. reflexivity.
  - reflexivity.
  - intros d Hd. simpl in Hd.
    repeat (destruct Hd as [<- | Hd]; [discriminate|]). destruct Hd.
Defined.

(** ** Two observations in one second *)

Lemma key_eqb_sym (k1 k2 : string * string) : key_eqb k1 k2 = key_eqb k2 k1.
Proof.
  destruct (key_eqb k1 k2) eqn:E.
  - apply key_eqb_eq in E. subst k2. symmetry. apply key_eqb_refl.
  - destruct (key_eqb k2 k1) eqn:E'; [|reflexivity].
    apply key_eqb_eq in E'. subst k2. rewrite key_eqb_refl in E. discriminate E.
Qed.

(** X15: the timestamp has the precision of a second and the key is the URL
    with the timestamp: of two observations of one URL made in the same
    second and saved together only the later is kept, whatever their
    outcomes, a failed request after a price included; the earlier rows of
    that key in the file go as well. *)
Theorem same_second_later_wins `{Pandas} (f : csv) (existing : DataFrame string)
    (resp1 resp2 : Response) (now u : string) (sel1 sel2 : option string) :
  read_csv f = Some existing ->
  let o1 := scrape_generic_product resp1 now u sel1 in
  let o2 := scrape_generic_product resp2 now u sel2 in
  let merged := filter (fun r => negb (has_key (u, now) r))
                       (drop_duplicates existing) ++ [o2] in
  save_to_csv (Some f) [o1; o2] = Some (merged, Some (to_csv merged))
  /\ save_to_csv None [o1; o2] = Some ([o2], Some (to_csv [o2])).
Proof.
  intros Hread o1 o2 merged.
  assert (K : forall resp sel,
             key (scrape_generic_product resp now u sel) = (u, now)).
  { intros resp sel. unfold scrape_generic_product.
    destruct resp as [detail | soup]; [reflexivity|].
    now destruct (resolve_price soup (price_selectors sel)). }
  pose proof (K resp1 sel1) as K1. pose proof (K resp2 sel2) as K2.
  fold o1 in K1. fold o2 in K2.
  assert (D : drop_duplicates [o1; o2] = [o2]).
  { simpl. unfold has_key. now rewrite K1, K2, key_eqb_refl. }
  split.
  - unfold save_to_csv. rewrite Hread, drop_duplicates_app, D.
    assert (E : filter (fun r => negb (key_in [o1; o2] r)) (drop_duplicates existing)
                = filter (fun r => negb (has_key (u, now) r))
                         (drop_duplicates existing)).
    { apply filter_ext. intros r. unfold key_in, has_key. simpl.
      rewrite K1, K2, (key_eqb_sym (key r) (u, now)).
      now destruct (key_eqb (u, now) (key r)). }
    now rewrite E.
  - unfold save_to_csv. now rewrite D.
Qed.

Lemma same_second_later_wins_witness :
  @save_to_csv table_pandas (Some [widget_row "2024-05-01 12:00:00"])
     [ widget_row "2024-05-02 12:00:00";
       scrape_generic_product (RequestException "Read timed out.")
         "2024-05-02 12:00:00" "https://x.com/widget" None ]
  = Some ( [ widget_row "2024-05-01 12:00:00";
             scrape_generic_product (RequestException "Read timed out.")
               "2024-05-02 12:00:00" "https://x.com/widget" None ],
           Some [ widget_row "2024-05-01 12:00:00";
                  scrape_generic_product (RequestException "Read timed out.")
                    "2024-05-02 12:00:00" "https://x.com/widget" None ]).
Proof.
  exact (proj1 (@same_second_later_wins table_pandas
                  [widget_row "2024-05-01 12:00:00"]
                  [widget_row "2024-05-01 12:00:00"]
                  (Fetched widget) (RequestException "Read timed out.")
                  "2024-05-02 12:00:00" "https://x.com/widget" None None
                  eq_refl)).
Defined.
